(** * oobabot: the Discrivener voice client

    A shallow embedding of [src/oobabot/voice_client.py] (class [VoiceClient])
    and the properties of its handshake, teardown and notification handling.

    The client is a Python object mutated by coroutines and by a callback that
    the transcriber invokes.  It is embedded as a record [VoiceClient] threaded
    through a state-and-exception monad [M].  The collaborators whose code is
    not part of the class (the gateway behind [guild.change_voice_state], the
    [Discrivener] process handle, the [AudioResponder], the [Transcript],
    [asyncio]'s loop lookup) are a record [World] of oracles: each call is appended to the
    client's [calls] trace and its outcome (return or raise) is whatever the
    oracle answers in the state the client has at the moment of the call. *)

From Stdlib Require Import String Ascii List Bool ZArith QArith Lia.
Import ListNotations.
Open Scope string_scope.
Open Scope list_scope.

Set Implicit Arguments.

(* ================================================================== *)
(** ** Python string operations used by the client *)

Module PyStr.

(** [s.rpartition(c)] for a one-character separator, as an option: the text
    before and after the LAST occurrence of [c], or [None] when [c] does not
    occur in [s]. *)
Fixpoint rsplit_last (c : ascii) (s : string) : option (string * string) :=
  match s with
  | EmptyString => None
  | String a rest =>
      match rsplit_last c rest with
      | Some (h, t) => Some (String a h, t)
      | None => if Ascii.eqb a c then Some (EmptyString, rest) else None
      end
  end.

(** [s.rpartition(c)]: the triple (head, separator, tail); when the
    separator is not found Python returns two empty strings and [s]. *)
Definition rpartition (c : ascii) (s : string) : string * string * string :=
  match rsplit_last c s with
  | Some (h, t) => (h, String c EmptyString, t)
  | None => (EmptyString, EmptyString, s)
  end.

(** [s.startswith(p)] *)
Definition startswith (p s : string) : bool := String.prefix p s.

(** [s[n:]] for a non-negative [n] *)
Fixpoint slice_from (n : nat) (s : string) : string :=
  match n, s with
  | O, _ => s
  | S _, EmptyString => EmptyString
  | S n', String _ rest => slice_from n' rest
  end.

(** [c in s] *)
Fixpoint contains (c : ascii) (s : string) : bool :=
  match s with
  | EmptyString => false
  | String a rest => Ascii.eqb a c || contains c rest
  end.

End PyStr.

(* ================================================================== *)
(** ** Data model *)

(** The channel classes of discord.py that [guild.get_channel] can return.
    [VocalGuildChannel] is the common base of [VoiceChannel] and
    [StageChannel]. *)
Inductive ChannelKind :=
| VoiceChannel | StageChannel | TextChannel | CategoryChannel | ForumChannel.

Definition is_VocalGuildChannel (k : ChannelKind) : bool :=
  match k with
  | VoiceChannel | StageChannel => true
  | _ => false
  end.

Record Channel := mkChannel {
  channel_id : Z;
  channel_kind : ChannelKind
}.

(** [voice.GuildVoiceState], the fields the client reads. *)
Record GuildVoiceState := mkGuildVoiceState {
  vs_session_id : string;            (* data["session_id"] *)
  vs_channel_id : option Z           (* data["channel_id"], None when absent *)
}.

(** [voice.VoiceServerUpdate]; [int(data["guild_id"])] is the [Z] held here. *)
Record VoiceServerUpdate := mkVoiceServerUpdate {
  su_token : option string;          (* data["token"] *)
  su_guild_id : Z;                   (* int(data["guild_id"]) *)
  su_endpoint : option string        (* data.get("endpoint") *)
}.

(** Modelled from the spec: [discrivener.DiscrivenerMessageType], declared
    in [discrivener.py], which is not among the sources.  The five kinds are
    those the spec lists and the handler tests for; [OTHER_TYPE] stands for
    any member the handler has no branch for. *)
Inductive DiscrivenerMessageType :=
| CONNECT | RECONNECT | DISCONNECT | USER_JOIN | TRANSCRIBED_MESSAGE
| OTHER_TYPE.

Record DiscrivenerMessage := mkDiscrivenerMessage {
  msg_type : DiscrivenerMessageType;
  msg_is_TranscribedMessage : bool;  (* isinstance(message, TranscribedMessage) *)
  msg_text : string
}.

Inductive VoiceClientErrorMessage :=
| AlreadyConnected                   (* "Already connected to a voice channel." *)
| CouldNotConnect (timeout : Q).     (* "Couldn't connect to voice channel within {timeout:.2f}s" *)

Inductive Exn :=
| VoiceClientError (message : VoiceClientErrorMessage)
| TimeoutError                       (* asyncio.TimeoutError *)
| AttributeError                     (* a method called on None *)
| CollaboratorError (what : string). (* raised inside a collaborator *)

Inductive Outcome (A : Type) :=
| Returned (a : A)
| Raised (e : Exn).
Arguments Raised {A} e.

Inductive Level := DEBUG | INFO | WARNING.

Record LogRecord := mkLog {
  log_level : Level;
  log_format : string
}.

(** The arguments of [Discrivener.run], in the order of the call. *)
Record RunArgs := mkRunArgs {
  run_channel_id : Z;
  run_endpoint : string;
  run_guild_id : Z;
  run_session_id : option string;    (* None is discord.utils.MISSING *)
  run_user_id : Z;
  run_token : string
}.

(** Calls that leave the class, in the order they are issued. *)
Inductive ExtCall :=
| ChangeVoiceState (channel : option Z) (self_deaf self_mute : bool)
| DiscrivenerRun (args : RunArgs)
| DiscrivenerStop
| AudioResponderStart
| AudioResponderStop
| Cleanup                            (* VoiceProtocol.cleanup() *)
| TranscriptOnMessage (text : string).

(** What [loop.call_soon_threadsafe] is given: the bound method
    [self.disconnect], to be called with no argument. *)
Inductive Callback := CallDisconnect.

(** Modelled from the spec: the [Discrivener] handle of [discrivener.py],
    which is not among the sources.  The client reads one thing of it,
    [is_running()]; what [run] and [stop] do to it is left to the [World]. *)
Record Discrivener := mkDiscrivener {
  is_running : bool
}.

Record VoiceClient := mkVoiceClient {
  channel : Channel;
  guild_id : Z;                          (* self.guild.id *)
  user_id : Z;                           (* self.user.id *)
  _discrivener : option Discrivener;
  _discrivener_connected : bool;
  _handshaking : bool;
  _oobabot_voice_connected : bool;
  _potentially_reconnecting : bool;
  _voice_state_complete : bool;          (* asyncio.Event *)
  _voice_server_complete : bool;         (* asyncio.Event *)
  _session_id : option string;           (* None is discord.utils.MISSING *)
  log : list LogRecord;                  (* fancy_logger output, oldest first *)
  calls : list ExtCall;                  (* calls issued, oldest first *)
  loop_callbacks : list Callback         (* queued on the event loop *)
}.

(** [__init__]: the state a freshly constructed client has. *)
Definition init (ch : Channel) (guild user : Z) (d : Discrivener) : VoiceClient :=
  {| channel := ch; guild_id := guild; user_id := user;
     _discrivener := Some d;
     _discrivener_connected := false;
     _handshaking := false;
     _oobabot_voice_connected := false;
     _potentially_reconnecting := false;
     _voice_state_complete := false;
     _voice_server_complete := false;
     _session_id := None;
     log := []; calls := []; loop_callbacks := [] |}.

(** Field assignments. *)
Definition set_channel (v : Channel) (c : VoiceClient) : VoiceClient :=
  mkVoiceClient v (guild_id c) (user_id c) (_discrivener c)
    (_discrivener_connected c) (_handshaking c) (_oobabot_voice_connected c)
    (_potentially_reconnecting c) (_voice_state_complete c)
    (_voice_server_complete c) (_session_id c) (log c) (calls c)
    (loop_callbacks c).

Definition set_discrivener (v : option Discrivener) (c : VoiceClient) : VoiceClient :=
  mkVoiceClient (channel c) (guild_id c) (user_id c) v
    (_discrivener_connected c) (_handshaking c) (_oobabot_voice_connected c)
    (_potentially_reconnecting c) (_voice_state_complete c)
    (_voice_server_complete c) (_session_id c) (log c) (calls c)
    (loop_callbacks c).

Definition set_discrivener_connected (v : bool) (c : VoiceClient) : VoiceClient :=
  mkVoiceClient (channel c) (guild_id c) (user_id c) (_discrivener c)
    v (_handshaking c) (_oobabot_voice_connected c)
    (_potentially_reconnecting c) (_voice_state_complete c)
    (_voice_server_complete c) (_session_id c) (log c) (calls c)
    (loop_callbacks c).

Definition set_handshaking (v : bool) (c : VoiceClient) : VoiceClient :=
  mkVoiceClient (channel c) (guild_id c) (user_id c) (_discrivener c)
    (_discrivener_connected c) v (_oobabot_voice_connected c)
    (_potentially_reconnecting c) (_voice_state_complete c)
    (_voice_server_complete c) (_session_id c) (log c) (calls c)
    (loop_callbacks c).

Definition set_oobabot_voice_connected (v : bool) (c : VoiceClient) : VoiceClient :=
  mkVoiceClient (channel c) (guild_id c) (user_id c) (_discrivener c)
    (_discrivener_connected c) (_handshaking c) v
    (_potentially_reconnecting c) (_voice_state_complete c)
    (_voice_server_complete c) (_session_id c) (log c) (calls c)
    (loop_callbacks c).

Definition set_voice_state_complete (v : bool) (c : VoiceClient) : VoiceClient :=
  mkVoiceClient (channel c) (guild_id c) (user_id c) (_discrivener c)
    (_discrivener_connected c) (_handshaking c) (_oobabot_voice_connected c)
    (_potentially_reconnecting c) v
    (_voice_server_complete c) (_session_id c) (log c) (calls c)
    (loop_callbacks c).

Definition set_voice_server_complete (v : bool) (c : VoiceClient) : VoiceClient :=
  mkVoiceClient (channel c) (guild_id c) (user_id c) (_discrivener c)
    (_discrivener_connected c) (_handshaking c) (_oobabot_voice_connected c)
    (_potentially_reconnecting c) (_voice_state_complete c)
    v (_session_id c) (log c) (calls c)
    (loop_callbacks c).

Definition set_session_id (v : option string) (c : VoiceClient) : VoiceClient :=
  mkVoiceClient (channel c) (guild_id c) (user_id c) (_discrivener c)
    (_discrivener_connected c) (_handshaking c) (_oobabot_voice_connected c)
    (_potentially_reconnecting c) (_voice_state_complete c)
    (_voice_server_complete c) v (log c) (calls c)
    (loop_callbacks c).

Definition set_log (v : list LogRecord) (c : VoiceClient) : VoiceClient :=
  mkVoiceClient (channel c) (guild_id c) (user_id c) (_discrivener c)
    (_discrivener_connected c) (_handshaking c) (_oobabot_voice_connected c)
    (_potentially_reconnecting c) (_voice_state_complete c)
    (_voice_server_complete c) (_session_id c) v (calls c)
    (loop_callbacks c).

Definition set_calls (v : list ExtCall) (c : VoiceClient) : VoiceClient :=
  mkVoiceClient (channel c) (guild_id c) (user_id c) (_discrivener c)
    (_discrivener_connected c) (_handshaking c) (_oobabot_voice_connected c)
    (_potentially_reconnecting c) (_voice_state_complete c)
    (_voice_server_complete c) (_session_id c) (log c) v
    (loop_callbacks c).

Definition set_loop_callbacks (v : list Callback) (c : VoiceClient) : VoiceClient :=
  mkVoiceClient (channel c) (guild_id c) (user_id c) (_discrivener c)
    (_discrivener_connected c) (_handshaking c) (_oobabot_voice_connected c)
    (_potentially_reconnecting c) (_voice_state_complete c)
    (_voice_server_complete c) (_session_id c) (log c) (calls c)
    v.

(** Appending to the two traces. *)
Definition add_log (l : Level) (format : string) (c : VoiceClient) : VoiceClient :=
  set_log (log c ++ [mkLog l format]) c.

Definition add_call (x : ExtCall) (c : VoiceClient) : VoiceClient :=
  set_calls (calls c ++ [x]) c.

Definition add_callback (cb : Callback) (c : VoiceClient) : VoiceClient :=
  set_loop_callbacks (loop_callbacks c ++ [cb]) c.

(* ================================================================== *)
(** ** Collaborators *)

(** The answer of [asyncio.get_event_loop()] on the calling thread. *)
Inductive LoopLookup :=
| LoopFound
| LoopIsNone
| LoopLookupRaises (e : Exn).

(** Everything the class calls but does not define.  An oracle sees the
    client as it is when the call is issued; [None] means the call returned,
    [Some e] that it raised [e].  The two [Discrivener] methods also answer
    the handle's state after the call. *)
Record World := mkWorld {
  guild_change_voice_state : VoiceClient -> option Z -> bool -> bool -> option Exn;
  guild_get_channel : Z -> option Channel;
  discrivener_run : VoiceClient -> RunArgs -> Discrivener * option Exn;
  discrivener_stop : VoiceClient -> Discrivener * option Exn;
  audio_responder_start : VoiceClient -> option Exn;
  audio_responder_stop : VoiceClient -> option Exn;
  transcript_on_transcribed_message : VoiceClient -> string -> option Exn;
  asyncio_get_event_loop : VoiceClient -> LoopLookup
}.

(* ================================================================== *)
(** ** The state-and-exception monad of the methods *)

Definition M (A : Type) : Type := VoiceClient -> Outcome A * VoiceClient.

Definition ret {A} (a : A) : M A := fun st => (Returned a, st).

Definition raise {A} (e : Exn) : M A := fun st => (Raised e, st).

Definition bind {A B} (m : M A) (k : A -> M B) : M B :=
  fun st =>
    match m st with
    | (Returned a, st') => k a st'
    | (Raised e, st') => (Raised e, st')
    end.

Notation "x <- m ;; k" := (bind m (fun x => k))
  (at level 61, m at next level, right associativity).
Notation "m ;; k" := (bind m (fun _ => k))
  (at level 61, right associativity).

Definition get : M VoiceClient := fun st => (Returned st, st).

Definition modify (f : VoiceClient -> VoiceClient) : M unit :=
  fun st => (Returned tt, f st).

(** [try: body finally: fin] *)
Definition try_finally {A} (body : M A) (fin : M unit) : M A :=
  fun st =>
    let (r, st1) := body st in
    match fin st1 with
    | (Returned _, st2) => (r, st2)
    | (Raised e, st2) => (Raised e, st2)
    end.

(** [try: body except ...: handler]; [handler e = None] when no [except]
    clause matches [e]. *)
Definition try_except {A} (body : M A) (handler : Exn -> option (M A)) : M A :=
  fun st =>
    match body st with
    | (Returned a, st1) => (Returned a, st1)
    | (Raised e, st1) =>
        match handler e with
        | Some h => h st1
        | None => (Raised e, st1)
        end
    end.

(** [fancy_logger.get().<level>(format, ...)] *)
Definition logger (l : Level) (format : string) : M unit :=
  modify (add_log l format).

(** A call to a collaborator: recorded, then answered by the oracle. *)
Definition call_out (c : ExtCall) (answer : VoiceClient -> option Exn) : M unit :=
  fun st =>
    let st' := add_call c st in
    match answer st with
    | None => (Returned tt, st')
    | Some e => (Raised e, st')
    end.

(** A method call on [self._discrivener]. *)
Definition discrivener_call (c : ExtCall)
    (answer : VoiceClient -> Discrivener * option Exn) : M unit :=
  fun st =>
    match _discrivener st with
    | None => (Raised AttributeError, st)
    | Some _ =>
        let (d', r) := answer st in
        let st' := set_discrivener (Some d') (add_call c st) in
        match r with
        | None => (Returned tt, st')
        | Some e => (Raised e, st')
        end
    end.

(* ================================================================== *)
(** ** The methods of [VoiceClient] *)

(** [is_connected] *)
Definition is_connected (st : VoiceClient) : bool :=
  if negb (_oobabot_voice_connected st) then false
  else
    match _discrivener st with
    | None => false
    | Some d =>
        if negb (is_running d) then false
        else _discrivener_connected st
    end.

(** Whether the [Discrivener] handle exists and reports a running process:
    the second and third tests of [is_connected] taken together. *)
Definition transcription_alive (st : VoiceClient) : bool :=
  match _discrivener st with
  | None => false
  | Some d => is_running d
  end.

(** The endpoint rewriting inside [on_voice_server_update]:
    [endpoint, _, _ = endpoint.rpartition(":")], then the removal of a
    leading ["wss://"]. *)
Definition normalize_endpoint (endpoint : string) : string :=
  let '(endpoint, _, _) := PyStr.rpartition ":"%char endpoint in
  if PyStr.startswith "wss://" endpoint
  then PyStr.slice_from 6 endpoint
  else endpoint.

(** [cleanup], inherited from [discord.VoiceProtocol]. *)
Definition cleanup : M unit := call_out Cleanup (fun _ => None).

(** [voice_connect] *)
Definition voice_connect (w : World) (self_deaf self_mute : bool) : M unit :=
  st <- get ;;
  let ch := Some (channel_id (channel st)) in
  call_out (ChangeVoiceState ch self_deaf self_mute)
           (fun st => guild_change_voice_state w st ch self_deaf self_mute).

(** [voice_disconnect] *)
Definition voice_disconnect (w : World) : M unit :=
  logger INFO "The voice handshake is being terminated for Channel ID %s (Guild ID %s)" ;;
  modify (set_oobabot_voice_connected false) ;;
  call_out (ChangeVoiceState None false false)
           (fun st => guild_change_voice_state w st None false false) ;;
  discrivener_call DiscrivenerStop (discrivener_stop w) ;;
  call_out AudioResponderStop (audio_responder_stop w).

(** [disconnect] *)
Definition disconnect (w : World) (force : bool) : M unit :=
  st <- get ;;
  if negb force && negb (is_connected st) then ret tt
  else try_finally (voice_disconnect w) cleanup.

(** [on_voice_state_update] *)
Definition on_voice_state_update (w : World) (data : GuildVoiceState) : M unit :=
  modify (set_session_id (Some (vs_session_id data))) ;;
  let channel_id := vs_channel_id data in
  st <- get ;;
  if negb (_handshaking st) || _potentially_reconnecting st then
    logger DEBUG "Server-initiated voice state update for Channel ID %s (Guild ID %s)" ;;
    match channel_id with
    | None => disconnect w false
    | Some cid =>
        match guild_get_channel w cid with
        | None => logger WARNING "Channel ID %s not found in Guild ID %s"
        | Some ch =>
            if negb (is_VocalGuildChannel (channel_kind ch))
            then logger WARNING "Channel ID %s not a VocalGuildChannel."
            else modify (set_channel ch)
        end
    end
  else
    logger DEBUG "Voice state complete for Channel ID %s (Guild ID %s) during handshake" ;;
    modify (set_voice_state_complete true).

(** [on_voice_server_update] *)
Definition on_voice_server_update (w : World) (data : VoiceServerUpdate) : M unit :=
  st <- get ;;
  if _voice_server_complete st then
    logger WARNING "Ignoring extraneous voice server update."
  else
    let token := su_token data in
    let guild_id := su_guild_id data in
    let endpoint := su_endpoint data in
    match endpoint, token with
    | Some endpoint, Some token =>
        let endpoint := normalize_endpoint endpoint in
        discrivener_call
          (DiscrivenerRun (mkRunArgs (channel_id (channel st)) endpoint guild_id
                                     (_session_id st) (user_id st) token))
          (fun st' => discrivener_run w st'
                        (mkRunArgs (channel_id (channel st)) endpoint guild_id
                                   (_session_id st) (user_id st) token)) ;;
        call_out AudioResponderStart (audio_responder_start w) ;;
        modify (set_voice_server_complete true)
    | _, _ =>
        logger WARNING "Awaiting endpoint... This requires waiting. If timeout occurred considering raising the timeout and reconnecting."
    end.

(** [_handle_discrivener_output], the callback given to [Discrivener]. *)
Definition _handle_discrivener_output (w : World) (message : DiscrivenerMessage) : M unit :=
  match msg_type message with
  | CONNECT | RECONNECT =>
      logger DEBUG "discrivener messsage: %s" ;;
      modify (set_voice_state_complete true) ;;
      modify (set_discrivener_connected true)
  | DISCONNECT =>
      logger DEBUG "discrivener messsage: %s" ;;
      modify (set_voice_state_complete true) ;;
      modify (set_discrivener_connected false) ;;
      st <- get ;;
      match asyncio_get_event_loop w st with
      | LoopLookupRaises e => raise e
      | LoopIsNone =>
          logger WARNING "No event loop to schedule voice_client.disconnect() call"
      | LoopFound =>
          modify (add_callback CallDisconnect)
      end
  | USER_JOIN =>
      logger DEBUG "discrivener messsage: %s"
  | TRANSCRIBED_MESSAGE =>
      if negb (msg_is_TranscribedMessage message)
      then logger WARNING "Transcribed message type but not TranscribedMessage"
      else call_out (TranscriptOnMessage (msg_text message))
                    (fun st => transcript_on_transcribed_message w st (msg_text message))
  | OTHER_TYPE =>
      logger WARNING "Unknown discrivener message type: %s"
  end.

(** What the event loop does with a queued callback: it calls the bound
    method with no argument.  [disconnect] is a coroutine function, so the
    call only builds a coroutine object, which nothing awaits: the body of
    [disconnect] does not run and the client is left as it is. *)
Definition run_callback (w : World) (cb : Callback) : M unit :=
  match cb with
  | CallDisconnect => ret tt
  end.

(** [potential_reconnect] and [move_to] *)
Definition potential_reconnect : M unit :=
  logger WARNING "voice_client::potential_reconnect: not implemented".

Definition move_to (w : World) (target : option Z) : M unit :=
  logger WARNING "voice_client::move_to: not implemented" ;;
  call_out (ChangeVoiceState target false false)
           (fun st => guild_change_voice_state w st target false false).

(* ================================================================== *)
(** ** The handshake wait *)

(** What can reach the client while [connect] is suspended in
    [sane_wait_for]: a gateway event, a transcriber notification, or the
    loop running its next queued callback.  Each handler runs to its end
    before the next arrival; an exception it raises stays with the task or
    thread that ran it and does not reach [connect]. *)
Inductive Delivery :=
| GatewayVoiceStateUpdate (data : GuildVoiceState)
| GatewayVoiceServerUpdate (data : VoiceServerUpdate)
| DiscrivenerOutput (message : DiscrivenerMessage)
| LoopRunsCallback.

Definition deliver (w : World) (d : Delivery) (st : VoiceClient) : VoiceClient :=
  match d with
  | GatewayVoiceStateUpdate data => snd (on_voice_state_update w data st)
  | GatewayVoiceServerUpdate data => snd (on_voice_server_update w data st)
  | DiscrivenerOutput message => snd (_handle_discrivener_output w message st)
  | LoopRunsCallback =>
      match loop_callbacks st with
      | [] => st
      | cb :: rest => snd (run_callback w cb (set_loop_callbacks rest st))
      end
  end.

(** [discord.utils.sane_wait_for([state.wait(), server.wait()], timeout)]:
    [arrivals] is what arrives before the timeout elapses, in order.  The
    wait ends as soon as both events are set; when the arrivals run out
    first, [asyncio.TimeoutError] is raised. *)
Fixpoint sane_wait_for (w : World) (arrivals : list Delivery) (st : VoiceClient)
  : Outcome unit * VoiceClient :=
  if _voice_state_complete st && _voice_server_complete st
  then (Returned tt, st)
  else
    match arrivals with
    | [] => (Raised TimeoutError, st)
    | d :: rest => sane_wait_for w rest (deliver w d st)
    end.

(** [connect], first half (lines 210-227): the guard, the reset of the two
    events and the request to the gateway. *)
Definition connect_request (w : World) (self_deaf self_mute : bool) : M unit :=
  logger INFO "Connecting to voice..." ;;
  st <- get ;;
  if is_connected st then raise (VoiceClientError AlreadyConnected)
  else
    modify (set_voice_state_complete false) ;;
    modify (set_voice_server_complete false) ;;
    modify (set_handshaking true) ;;
    logger INFO "Starting voice handshake..." ;;
    voice_connect w self_deaf self_mute.

(** [connect], second half (lines 229-243): the bounded wait, its
    [except asyncio.TimeoutError] clause, and the bookkeeping after a
    completed handshake. *)
Definition connect_await (w : World) (timeout : Q) (arrivals : list Delivery) : M unit :=
  try_except (sane_wait_for w arrivals)
    (fun err =>
       match err with
       | TimeoutError =>
           Some (disconnect w true ;;
                 raise (VoiceClientError (CouldNotConnect timeout)))
       | _ => None
       end) ;;
  modify (set_oobabot_voice_connected true) ;;
  modify (set_voice_state_complete false) ;;
  modify (set_voice_server_complete false) ;;
  logger INFO "Voice handshake complete." ;;
  modify (set_handshaking false).

(** [connect]; [arrivals] is what reaches the client during the wait. *)
Definition connect (w : World) (reconnect : bool) (timeout : Q)
    (self_deaf self_mute : bool) (arrivals : list Delivery) : M unit :=
  connect_request w self_deaf self_mute ;;
  connect_await w timeout arrivals.

(** Both events of the handshake are set. *)
Definition handshake_complete (st : VoiceClient) : bool :=
  _voice_state_complete st && _voice_server_complete st.

(* ================================================================== *)
(** ** Names used in the statements *)

(** The request by which the client leaves its channel:
    [change_voice_state(channel=None)]. *)
Definition leave_request : ExtCall := ChangeVoiceState None false false.

(** The client as it is when [voice_disconnect] issues the leave request:
    the log line written and the gateway-connected flag assigned, no call
    made yet. *)
Definition about_to_leave (st : VoiceClient) : VoiceClient :=
  set_oobabot_voice_connected false
    (add_log INFO "The voice handshake is being terminated for Channel ID %s (Guild ID %s)" st).

(** Two worlds that answer alike whenever the client's gateway-connected
    flag is false (they may differ in any state in which it is true). *)
Definition agree_once_disconnected (w w' : World) : Prop :=
  forall s, _oobabot_voice_connected s = false ->
    (forall ch d m, guild_change_voice_state w s ch d m = guild_change_voice_state w' s ch d m)
    /\ discrivener_stop w s = discrivener_stop w' s
    /\ audio_responder_stop w s = audio_responder_stop w' s.

(** The branch test of [on_voice_state_update]: the update is not one of
    the two handshake signals but a change the server made on its own. *)
Definition server_initiated (st : VoiceClient) : bool :=
  negb (_handshaking st) || _potentially_reconnecting st.

(* ================================================================== *)
(** ** Sample collaborators and clients *)

Module Samples.
Local Open Scope Z_scope.

Definition lobby : Channel := mkChannel 10 VoiceChannel.
Definition stage : Channel := mkChannel 11 StageChannel.
Definition general : Channel := mkChannel 20 TextChannel.

(** A guild with two vocal channels and a text channel. *)
Definition channels (id : Z) : option Channel :=
  if id =? 10 then Some lobby
  else if id =? 11 then Some stage
  else if id =? 20 then Some general
  else None.

(** A world in which every collaborator call returns. *)
Definition calm : World :=
  {| guild_change_voice_state := fun _ _ _ _ => None;
     guild_get_channel := channels;
     discrivener_run := fun _ _ => (mkDiscrivener true, None);
     discrivener_stop := fun _ => (mkDiscrivener false, None);
     audio_responder_start := fun _ => None;
     audio_responder_stop := fun _ => None;
     transcript_on_transcribed_message := fun _ _ => None;
     asyncio_get_event_loop := fun _ => LoopFound |}.

(** As [calm], but the gateway refuses the request to leave the channel. *)
Definition leave_fails : World :=
  {| guild_change_voice_state := fun _ ch _ _ =>
       match ch with
       | None => Some (CollaboratorError "ConnectionClosed")
       | Some _ => None
       end;
     guild_get_channel := channels;
     discrivener_run := fun _ _ => (mkDiscrivener true, None);
     discrivener_stop := fun _ => (mkDiscrivener false, None);
     audio_responder_start := fun _ => None;
     audio_responder_stop := fun _ => None;
     transcript_on_transcribed_message := fun _ _ => None;
     asyncio_get_event_loop := fun _ => LoopFound |}.

(** As [calm], but the gateway refuses every request made while the client
    still counts itself connected at the gateway. *)
Definition strict_gateway : World :=
  {| guild_change_voice_state := fun st _ _ _ =>
       if _oobabot_voice_connected st
       then Some (CollaboratorError "StillConnected")
       else None;
     guild_get_channel := channels;
     discrivener_run := fun _ _ => (mkDiscrivener true, None);
     discrivener_stop := fun st =>
       (mkDiscrivener false,
        if _oobabot_voice_connected st
        then Some (CollaboratorError "StillConnected") else None);
     audio_responder_start := fun _ => None;
     audio_responder_stop := fun st =>
       if _oobabot_voice_connected st
       then Some (CollaboratorError "StillConnected") else None;
     transcript_on_transcribed_message := fun _ _ => None;
     asyncio_get_event_loop := fun _ => LoopFound |}.

(** As [calm], but the transcript refuses the messages handed to it. *)
Definition transcript_fails : World :=
  {| guild_change_voice_state := fun _ _ _ _ => None;
     guild_get_channel := channels;
     discrivener_run := fun _ _ => (mkDiscrivener true, None);
     discrivener_stop := fun _ => (mkDiscrivener false, None);
     audio_responder_start := fun _ => None;
     audio_responder_stop := fun _ => None;
     transcript_on_transcribed_message := fun _ _ =>
       Some (CollaboratorError "TranscriptClosed");
     asyncio_get_event_loop := fun _ => LoopFound |}.

(** As [calm], but stopping the transcriber raises. *)
Definition stop_fails : World :=
  {| guild_change_voice_state := fun _ _ _ _ => None;
     guild_get_channel := channels;
     discrivener_run := fun _ _ => (mkDiscrivener true, None);
     discrivener_stop := fun _ =>
       (mkDiscrivener true, Some (CollaboratorError "ProcessLookupError"));
     audio_responder_start := fun _ => None;
     audio_responder_stop := fun _ => None;
     transcript_on_transcribed_message := fun _ _ => None;
     asyncio_get_event_loop := fun _ => LoopFound |}.

(** A client just constructed for the lobby. *)
Definition fresh : VoiceClient := init lobby 1 2 (mkDiscrivener false).

(** A client after a completed handshake, transcriber up. *)
Definition live : VoiceClient :=
  {| channel := lobby; guild_id := 1; user_id := 2;
     _discrivener := Some (mkDiscrivener true);
     _discrivener_connected := true;
     _handshaking := false;
     _oobabot_voice_connected := true;
     _potentially_reconnecting := false;
     _voice_state_complete := false;
     _voice_server_complete := false;
     _session_id := Some "s-1";
     log := []; calls := []; loop_callbacks := [] |}.

(** A client in the middle of its handshake. *)
Definition shaking : VoiceClient := set_handshaking true fresh.

Definition server_update : VoiceServerUpdate :=
  mkVoiceServerUpdate (Some "tok") 1 (Some "wss://region123.example.com:443").

Definition state_update (ch : option Z) : GuildVoiceState :=
  mkGuildVoiceState "s-2" ch.

Definition disconnect_message : DiscrivenerMessage :=
  mkDiscrivenerMessage DISCONNECT false "".

(** The connected client after the transcriber's disconnect notification. *)
Definition notified : VoiceClient :=
  snd (_handle_discrivener_output calm disconnect_message live).

End Samples.

(* ================================================================== *)
(** ** The client in use: sequences of calls and events *)

(** What can happen to a client over its life: the bot calls one of the
    public coroutines, or something is delivered to it. *)
Inductive Api :=
| ApiConnect (reconnect : bool) (timeout : Q) (self_deaf self_mute : bool)
             (arrivals : list Delivery)
| ApiDisconnect (force : bool)
| ApiMoveTo (target : option Z)
| ApiPotentialReconnect
| ApiEvent (d : Delivery).

(** The client after one of them; an exception goes to whoever made the
    call, the client keeps the state it was left in. *)
Definition perform (w : World) (a : Api) (st : VoiceClient) : VoiceClient :=
  match a with
  | ApiConnect reconnect timeout self_deaf self_mute arrivals =>
      snd (connect w reconnect timeout self_deaf self_mute arrivals st)
  | ApiDisconnect force => snd (disconnect w force st)
  | ApiMoveTo target => snd (move_to w target st)
  | ApiPotentialReconnect => snd (potential_reconnect st)
  | ApiEvent d => deliver w d st
  end.

Definition perform_all (w : World) (l : list Api) (st : VoiceClient) : VoiceClient :=
  fold_left (fun s a => perform w a s) l st.

(** The transcriber's notifications handled one after the other. *)
Definition notify_all (w : World) (ms : list DiscrivenerMessage) (st : VoiceClient)
  : VoiceClient :=
  fold_left (fun s m => snd (_handle_discrivener_output w m s)) ms st.

(** What the last connect, reconnect or disconnect notification of a
    sequence says, [before] when the sequence holds none. *)
Fixpoint last_lifecycle (before : bool) (ms : list DiscrivenerMessage) : bool :=
  match ms with
  | [] => before
  | m :: rest =>
      last_lifecycle
        (match msg_type m with
         | CONNECT | RECONNECT => true
         | DISCONNECT => false
         | _ => before
         end) rest
  end.

(** The client as [connect] leaves it just before its request to the
    gateway: first log line, both events cleared, handshaking, second log
    line. *)
Definition handshake_started (st : VoiceClient) : VoiceClient :=
  add_log INFO "Starting voice handshake..."
    (set_handshaking true
       (set_voice_server_complete false
          (set_voice_state_complete false
             (add_log INFO "Connecting to voice..." st)))).

(** The request [voice_connect] sends for the client's own channel. *)
Definition join_request (st : VoiceClient) (self_deaf self_mute : bool) : ExtCall :=
  ChangeVoiceState (Some (channel_id (channel st))) self_deaf self_mute.

(** The arguments [on_voice_server_update] gives to [Discrivener.run]. *)
Definition run_args_of (st : VoiceClient) (data : VoiceServerUpdate)
    (endpoint token : string) : RunArgs :=
  mkRunArgs (channel_id (channel st)) (normalize_endpoint endpoint)
            (su_guild_id data) (_session_id st) (user_id st) token.

(** A world in which no collaborator call raises. *)
Definition cooperative (w : World) : Prop :=
  (forall s ch d m, guild_change_voice_state w s ch d m = None)
  /\ (forall s a, snd (discrivener_run w s a) = None)
  /\ (forall s, snd (discrivener_stop w s) = None)
  /\ (forall s, audio_responder_start w s = None)
  /\ (forall s, audio_responder_stop w s = None).

(** An arrival that cannot set the server event: anything but a
    voice-server update that carries both an endpoint and a token. *)
Definition cannot_set_server_event (d : Delivery) : bool :=
  match d with
  | GatewayVoiceServerUpdate data =>
      match su_endpoint data, su_token data with
      | Some _, Some _ => false
      | _, _ => true
      end
  | _ => true
  end.

(* ================================================================== *)
(** ** [oobabot.py]: the local REPL *)

Module LocalREPL.

(** One call of [print] by the REPL. *)
Inductive Print :=
| ShowPrompt                    (* print("\n>>> ", end='', flush=True) *)
| PrintToken (token : string)   (* print(token, end='', flush=True) *)
| PrintEndOfResponse.           (* print('') *)

(** The body of the inner loop: [if token: ... else: ...]; a string is
    true when it is not empty. *)
Definition echo (token : string) : Print :=
  match token with
  | EmptyString => PrintEndOfResponse
  | _ => PrintToken token
  end.

(** [start], after its first prompt: for every line of standard input the
    tokens of [ooba_client.request_by_token(user_prompt)] are echoed, then
    the prompt is shown. *)
Fixpoint serve (request_by_token : string -> list string) (stdin : list string)
  : list Print :=
  match stdin with
  | [] => []
  | user_prompt :: rest =>
      map echo (request_by_token user_prompt)
      ++ ShowPrompt :: serve request_by_token rest
  end.

(** [start] *)
Definition start (request_by_token : string -> list string) (stdin : list string)
  : list Print :=
  ShowPrompt :: serve request_by_token stdin.

Definition newline : string := String "010"%char EmptyString.

(** The text a call of [print] writes. *)
Definition written (p : Print) : string :=
  match p with
  | ShowPrompt => (newline ++ ">>> ")%string
  | PrintToken token => token
  | PrintEndOfResponse => newline
  end.

(** Standard output after the calls [ps]. *)
Definition stdout (ps : list Print) : string := String.concat "" (map written ps).

Definition is_prompt (p : Print) : bool :=
  match p with ShowPrompt => true | _ => false end.

Definition token_of (p : Print) : list string :=
  match p with PrintToken t => [t] | _ => [] end.

Definition nonempty (s : string) : bool :=
  match s with EmptyString => false | _ => true end.

End LocalREPL.

Unset Implicit Arguments.

(* ================================================================== *)
(** ** Strings: what [rpartition] and the prefix test guarantee *)

Section PyStrFacts.
Import PyStr.

Lemma rsplit_last_some c s h t :
  rsplit_last c s = Some (h, t) ->
  s = (h ++ String c t)%string /\ contains c t = false.
Proof.
  revert h t. induction s as [|a rest IH]; intros h t; simpl.
  - discriminate.
  - destruct (rsplit_last c rest) as [[h' t']|] eqn:E.
    + intros [= <- <-]. destruct (IH h' t' eq_refl) as [-> Hc].
      split; [reflexivity | exact Hc].
    + destruct (Ascii.eqb a c) eqn:Eac; [|discriminate].
      intros [= <- <-]. apply Ascii.eqb_eq in Eac. subst a.
      split; [reflexivity|].
      clear IH. induction rest as [|b r IHr]; simpl in *; [reflexivity|].
      destruct (rsplit_last c r) as [[? ?]|]; [discriminate|].
      destruct (Ascii.eqb b c); [discriminate|]. simpl. apply IHr. reflexivity.
Qed.

Lemma rsplit_last_none c s :
  rsplit_last c s = None -> contains c s = false.
Proof.
  induction s as [|a rest IH]; simpl; [reflexivity|].
  destruct (rsplit_last c rest) as [[? ?]|]; [discriminate|].
  destruct (Ascii.eqb a c); [discriminate|]. intros _. simpl. apply IH. reflexivity.
Qed.

Lemma prefix_append p h x :
  String.prefix p h = true -> String.prefix p (h ++ x)%string = true.
Proof.
  revert h. induction p as [|a p IH]; intros h.
  - intros _. destruct (h ++ x)%string; reflexivity.
  - destruct h as [|b h]; simpl; [discriminate|].
    destruct (ascii_dec a b); [apply IH | discriminate].
Qed.

(** The head that [rpartition] returns starts the input, so a prefix of
    the head is a prefix of the input. *)
Lemma startswith_rpartition_head c p s :
  startswith p (fst (fst (rpartition c s))) = true ->
  p <> EmptyString ->
  startswith p s = true.
Proof.
  unfold rpartition, startswith.
  destruct (rsplit_last c s) as [[h t]|] eqn:E; simpl.
  - intros Hp _. apply rsplit_last_some in E. destruct E as [-> _].
    apply prefix_append. exact Hp.
  - destruct p; [intros _ H; now elim H | discriminate].
Qed.

End PyStrFacts.

(** Without a leading ["wss://"] the rewriting is [rpartition]'s head. *)
Lemma normalize_endpoint_no_scheme e :
  PyStr.startswith "wss://" e = false ->
  normalize_endpoint e = fst (fst (PyStr.rpartition ":"%char e)).
Proof.
  intros Hno. unfold normalize_endpoint.
  destruct (PyStr.rpartition ":"%char e) as [[h sep] t] eqn:E. simpl.
  destruct (PyStr.startswith "wss://" h) eqn:Hh; [|reflexivity].
  assert (PyStr.startswith "wss://" e = true) as Habs.
  { apply (startswith_rpartition_head ":"%char).
    - rewrite E. exact Hh.
    - discriminate. }
  congruence.
Qed.

(** C7, as the spec states it, fails: the port suffix of the example is
    removed together with the scheme, so the stored endpoint is not
    ["region123.example.com:443"]. *)
Lemma C7_example_loses_port :
  normalize_endpoint "wss://region123.example.com:443" = "region123.example.com"
  /\ normalize_endpoint "wss://region123.example.com:443"
     <> "region123.example.com:443".
Proof. split; [reflexivity | discriminate]. Qed.

(** C7 (amended): ["wss://region123.example.com:443"] is normalized to
    ["region123.example.com"], and an endpoint that does not start with
    ["wss://"] is changed by the port-suffix rule alone: the result is the text
    before its last [":"] (the empty string when it has no [":"]). *)
Theorem C7_endpoint_normalization :
  normalize_endpoint "wss://region123.example.com:443" = "region123.example.com"
  /\ (forall e,
        PyStr.startswith "wss://" e = false ->
        normalize_endpoint e = fst (fst (PyStr.rpartition ":"%char e)))
  /\ (forall e h t,
        PyStr.startswith "wss://" e = false ->
        PyStr.rsplit_last ":"%char e = Some (h, t) ->
        e = (h ++ ":" ++ t)%string /\ PyStr.contains ":"%char t = false
        /\ normalize_endpoint e = h)
  /\ (forall e,
        PyStr.contains ":"%char e = false ->
        normalize_endpoint e = "").
Proof.
  split; [reflexivity|]. split; [exact normalize_endpoint_no_scheme|]. split.
  - intros e h t Hno E.
    destruct (rsplit_last_some _ _ _ _ E) as [He Hc].
    split; [exact He|]. split; [exact Hc|].
    rewrite (normalize_endpoint_no_scheme _ Hno).
    unfold PyStr.rpartition. rewrite E. reflexivity.
  - intros e Hc.
    assert (PyStr.rsplit_last ":"%char e = None) as E.
    { destruct (PyStr.rsplit_last ":"%char e) as [[h t]|] eqn:E; [|reflexivity].
      apply rsplit_last_some in E. destruct E as [-> _].
      exfalso. clear -Hc. induction h as [|a h IH]; simpl in Hc.
      - discriminate.
      - apply orb_false_iff in Hc. destruct Hc as [_ Hc]. auto. }
    unfold normalize_endpoint, PyStr.rpartition. rewrite E. reflexivity.
Qed.

(** The amended C7 at endpoints without the scheme: one with a port, one
    without any [":"]. *)
Lemma C7_endpoint_normalization_witness :
  normalize_endpoint "region123.example.com:443" = "region123.example.com"
  /\ normalize_endpoint "region123.example.com" = "".
Proof.
  destruct C7_endpoint_normalization as (_ & _ & Hsplit & Hnone).
  split.
  - apply (Hsplit "region123.example.com:443" "region123.example.com" "443");
      reflexivity.
  - apply (Hnone "region123.example.com"). reflexivity.
Defined.

(* ================================================================== *)
(** ** [is_connected] *)

Lemma is_connected_and st :
  is_connected st =
  _oobabot_voice_connected st && transcription_alive st && _discrivener_connected st.
Proof.
  unfold is_connected, transcription_alive.
  destruct (_oobabot_voice_connected st), (_discrivener st) as [[[|]]|],
           (_discrivener_connected st); reflexivity.
Qed.

Lemma is_connected_needs_gateway_flag st :
  _oobabot_voice_connected st = false -> is_connected st = false.
Proof. intros H. rewrite is_connected_and, H. reflexivity. Qed.

Lemma is_connected_needs_notification st :
  _discrivener_connected st = false -> is_connected st = false.
Proof. intros H. rewrite is_connected_and, H. apply andb_false_r. Qed.

(** C3: [is_connected] is the conjunction of the gateway-connected flag,
    the liveness of the transcription session and the transcription-connected
    flag; making any one of them false makes it false. *)
Theorem C3_is_connected_three_way_and st :
  (is_connected st = true <->
     _oobabot_voice_connected st = true
     /\ transcription_alive st = true
     /\ _discrivener_connected st = true)
  /\ is_connected (set_oobabot_voice_connected false st) = false
  /\ is_connected (set_discrivener (Some (mkDiscrivener false)) st) = false
  /\ is_connected (set_discrivener None st) = false
  /\ is_connected (set_discrivener_connected false st) = false.
Proof.
  split.
  - rewrite is_connected_and, !andb_true_iff. tauto.
  - rewrite !is_connected_and. unfold transcription_alive. simpl.
    rewrite !andb_false_r. repeat split; reflexivity.
Qed.

(** C3 on the sample client: connected, and no longer so once the
    transcriber has reported a disconnect. *)
Lemma C3_is_connected_three_way_and_witness :
  is_connected Samples.live = true
  /\ is_connected (set_discrivener_connected false Samples.live) = false.
Proof.
  destruct (C3_is_connected_three_way_and Samples.live) as (Hiff & _ & _ & _ & Hflag).
  split.
  - apply Hiff. repeat split; reflexivity.
  - exact Hflag.
Defined.

(** The transcription-connected flag after one notification: set by
    connect and reconnect, cleared by disconnect, kept by every other kind. *)
Lemma discrivener_connected_after_notification w m st :
  _discrivener_connected (snd (_handle_discrivener_output w m st)) =
  match msg_type m with
  | CONNECT | RECONNECT => true
  | DISCONNECT => false
  | _ => _discrivener_connected st
  end.
Proof.
  unfold _handle_discrivener_output.
  destruct (msg_type m); try reflexivity.
  - unfold bind, logger, modify, get. simpl.
    destruct (asyncio_get_event_loop w _); reflexivity.
  - destruct (msg_is_TranscribedMessage m); [|reflexivity].
    unfold call_out. cbn [negb].
    destruct (transcript_on_transcribed_message w st (msg_text m)); reflexivity.
Qed.

(* ================================================================== *)
(** ** [connect] on a connected client *)

(** C6: on a client for which [is_connected] holds, [connect] raises the
    already-connected error after its first log line and does nothing else:
    no request reaches the gateway and neither handshake event changes. *)
Theorem C6_connect_when_connected w reconnect timeout self_deaf self_mute arrivals st :
  is_connected st = true ->
  connect w reconnect timeout self_deaf self_mute arrivals st =
    (Raised (VoiceClientError AlreadyConnected),
     add_log INFO "Connecting to voice..." st)
  /\ calls (snd (connect w reconnect timeout self_deaf self_mute arrivals st)) = calls st
  /\ _voice_state_complete (snd (connect w reconnect timeout self_deaf self_mute arrivals st))
     = _voice_state_complete st
  /\ _voice_server_complete (snd (connect w reconnect timeout self_deaf self_mute arrivals st))
     = _voice_server_complete st.
Proof.
  intros Hc.
  assert (connect w reconnect timeout self_deaf self_mute arrivals st =
          (Raised (VoiceClientError AlreadyConnected),
           add_log INFO "Connecting to voice..." st)) as E.
  { unfold connect, connect_request, bind, logger, modify, get, raise.
    cbn [fst snd].
    replace (is_connected (add_log INFO "Connecting to voice..." st))
      with (is_connected st) by reflexivity.
    rewrite Hc. reflexivity. }
  rewrite E. repeat split; reflexivity.
Qed.

(** C6 on the sample connected client, with both updates ready to arrive. *)
Lemma C6_connect_when_connected_witness :
  fst (connect Samples.calm false (5 # 1)%Q false false
         [GatewayVoiceStateUpdate (Samples.state_update (Some 10%Z));
          GatewayVoiceServerUpdate Samples.server_update]
         Samples.live)
  = Raised (VoiceClientError AlreadyConnected).
Proof.
  pose proof (C6_connect_when_connected Samples.calm false (5 # 1)%Q false false
    [GatewayVoiceStateUpdate (Samples.state_update (Some 10%Z));
     GatewayVoiceServerUpdate Samples.server_update]
    Samples.live eq_refl) as [E _].
  rewrite E. reflexivity.
Defined.

(* ================================================================== *)
(** ** Teardown: [voice_disconnect] and [disconnect] *)

(** [voice_disconnect] written out call by call. *)
Lemma voice_disconnect_steps w st :
  voice_disconnect w st =
  let s1 := about_to_leave st in
  let s2 := add_call leave_request s1 in
  match guild_change_voice_state w s1 None false false with
  | Some e => (Raised e, s2)
  | None =>
      match _discrivener st with
      | None => (Raised AttributeError, s2)
      | Some _ =>
          let s3 := set_discrivener (Some (fst (discrivener_stop w s2)))
                                    (add_call DiscrivenerStop s2) in
          match snd (discrivener_stop w s2) with
          | Some e => (Raised e, s3)
          | None =>
              match audio_responder_stop w s3 with
              | Some e => (Raised e, add_call AudioResponderStop s3)
              | None => (Returned tt, add_call AudioResponderStop s3)
              end
          end
      end
  end.
Proof.
  unfold voice_disconnect, bind, logger, modify, call_out, discrivener_call.
  cbn [fst snd]. fold (about_to_leave st). fold leave_request.
  destruct (guild_change_voice_state w (about_to_leave st) None false false);
    [reflexivity|].
  cbn [_discrivener add_call set_calls about_to_leave
       set_oobabot_voice_connected add_log set_log].
  destruct (_discrivener st); [|reflexivity].
  fold (add_log INFO "The voice handshake is being terminated for Channel ID %s (Guild ID %s)" st).
  fold (set_oobabot_voice_connected false
          (add_log INFO "The voice handshake is being terminated for Channel ID %s (Guild ID %s)" st)).
  fold (about_to_leave st).
  fold (add_call leave_request (about_to_leave st)).
  destruct (discrivener_stop w (add_call leave_request (about_to_leave st)))
    as [d' [e|]]; cbn [fst snd]; [reflexivity|].
  destruct (audio_responder_stop w _); reflexivity.
Qed.

(** A teardown that is not skipped is [voice_disconnect] followed by
    [cleanup], which keeps the outcome of [voice_disconnect]. *)
Lemma disconnect_runs w force st :
  force = true \/ is_connected st = true ->
  disconnect w force st =
  (fst (voice_disconnect w st), add_call Cleanup (snd (voice_disconnect w st))).
Proof.
  intros H. unfold disconnect, bind, get, try_finally, cleanup, call_out.
  assert (negb force && negb (is_connected st) = false) as ->.
  { destruct H as [-> | ->]; [reflexivity | apply andb_false_r]. }
  destruct (voice_disconnect w st) as [r s]. reflexivity.
Qed.

Lemma disconnect_skipped w st :
  is_connected st = false -> disconnect w false st = (Returned tt, st).
Proof.
  intros H. unfold disconnect, bind, get, ret. rewrite H. reflexivity.
Qed.

(** Whatever the collaborators answer, [voice_disconnect] leaves the
    gateway-connected flag false, writes one log line, and leaves the
    channel, the session id and the callback queue alone. *)
Lemma voice_disconnect_frame w st :
  let st' := snd (voice_disconnect w st) in
  _oobabot_voice_connected st' = false
  /\ log st' = log (about_to_leave st)
  /\ channel st' = channel st
  /\ _session_id st' = _session_id st
  /\ loop_callbacks st' = loop_callbacks st
  /\ _voice_state_complete st' = _voice_state_complete st
  /\ _voice_server_complete st' = _voice_server_complete st
  /\ _discrivener_connected st' = _discrivener_connected st.
Proof.
  rewrite voice_disconnect_steps. cbv zeta.
  destruct (guild_change_voice_state w _ None false false).
  { repeat split. }
  destruct (_discrivener st).
  2:{ repeat split. }
  destruct (snd (discrivener_stop w _)).
  { repeat split. }
  destruct (audio_responder_stop w _); repeat split.
Qed.

(** The calls a teardown adds: the leave request first, [cleanup] last, and
    between them the stops that were reached. *)
Lemma disconnect_calls w force st :
  force = true \/ is_connected st = true ->
  exists stops,
    calls (snd (disconnect w force st)) =
      calls st ++ leave_request :: stops ++ [Cleanup]
    /\ (stops = [] \/ stops = [DiscrivenerStop]
        \/ stops = [DiscrivenerStop; AudioResponderStop]).
Proof.
  intros H. rewrite (disconnect_runs w _ _ H), voice_disconnect_steps. cbv zeta.
  destruct (guild_change_voice_state w _ None false false).
  { exists []. split; [|auto]. cbn. rewrite <- app_assoc. reflexivity. }
  destruct (_discrivener st).
  2:{ exists []. split; [|auto]. cbn. rewrite <- app_assoc. reflexivity. }
  destruct (snd (discrivener_stop w _)).
  { exists [DiscrivenerStop]. split; [|auto]. cbn. rewrite <- !app_assoc. reflexivity. }
  exists [DiscrivenerStop; AudioResponderStop]. split; [|auto].
  destruct (audio_responder_stop w _); cbn; rewrite <- !app_assoc; reflexivity.
Qed.

(** C5, as the spec states it, fails: when the gateway refuses the leave
    request the error reaches the caller of [disconnect] (after [cleanup]),
    and the log holds nothing but the line written before the request. *)
Lemma C5_leave_failure_reaches_caller :
  is_connected Samples.live = true
  /\ disconnect Samples.leave_fails false Samples.live =
       (Raised (CollaboratorError "ConnectionClosed"),
        add_call Cleanup (add_call leave_request (about_to_leave Samples.live)))
  /\ fst (disconnect Samples.leave_fails false Samples.live) <> Returned tt
  /\ log (snd (disconnect Samples.leave_fails false Samples.live)) =
       [mkLog INFO "The voice handshake is being terminated for Channel ID %s (Guild ID %s)"].
Proof. repeat split. discriminate. Qed.

(** C5 (amended): [disconnect] changes nothing when the client is not
    connected and [force] is false.  Otherwise it asks the gateway to leave
    the channel, then stops the transcription session, then stops the sinks,
    each step only when the one before it returned, and [cleanup] runs last
    in every case.  A refused leave request is not logged and not absorbed:
    after [cleanup] its error is raised to the caller, and neither stop was
    called.  The last part gives the whole result for every answer of the
    collaborators: the first call that raises ends the stops, [cleanup]
    follows, and that error is the outcome. *)
Theorem C5_disconnect w force st :
  (force = false -> is_connected st = false ->
     disconnect w force st = (Returned tt, st))
  /\ (force = true \/ is_connected st = true ->
      (exists stops,
          calls (snd (disconnect w force st)) =
            calls st ++ leave_request :: stops ++ [Cleanup]
          /\ (stops = [] \/ stops = [DiscrivenerStop]
              \/ stops = [DiscrivenerStop; AudioResponderStop]))
      /\ log (snd (disconnect w force st)) = log (about_to_leave st)
      /\ (forall e,
            guild_change_voice_state w (about_to_leave st) None false false = Some e ->
            disconnect w force st =
              (Raised e, add_call Cleanup (add_call leave_request (about_to_leave st))))
      /\ (guild_change_voice_state w (about_to_leave st) None false false = None ->
          _discrivener st <> None ->
          (forall s, snd (discrivener_stop w s) = None) ->
          (forall s, audio_responder_stop w s = None) ->
          fst (disconnect w force st) = Returned tt
          /\ calls (snd (disconnect w force st)) =
               calls st ++ [leave_request; DiscrivenerStop; AudioResponderStop; Cleanup])
      /\ disconnect w force st =
           match guild_change_voice_state w (about_to_leave st) None false false with
           | Some e =>
               (Raised e, add_call Cleanup (add_call leave_request (about_to_leave st)))
           | None =>
               match _discrivener st with
               | None =>
                   (Raised AttributeError,
                    add_call Cleanup (add_call leave_request (about_to_leave st)))
               | Some _ =>
                   match snd (discrivener_stop w
                                (add_call leave_request (about_to_leave st))) with
                   | Some e =>
                       (Raised e,
                        add_call Cleanup
                          (set_discrivener
                             (Some (fst (discrivener_stop w
                                           (add_call leave_request (about_to_leave st)))))
                             (add_call DiscrivenerStop
                                (add_call leave_request (about_to_leave st)))))
                   | None =>
                       (match audio_responder_stop w
                                (set_discrivener
                                   (Some (fst (discrivener_stop w
                                                 (add_call leave_request
                                                    (about_to_leave st)))))
                                   (add_call DiscrivenerStop
                                      (add_call leave_request (about_to_leave st)))) with
                        | Some e => Raised e
                        | None => Returned tt
                        end,
                        add_call Cleanup
                          (add_call AudioResponderStop
                             (set_discrivener
                                (Some (fst (discrivener_stop w
                                              (add_call leave_request
                                                 (about_to_leave st)))))
                                (add_call DiscrivenerStop
                                   (add_call leave_request (about_to_leave st))))))
                   end
               end
           end).
Proof.
  split.
  - intros -> Hc. apply disconnect_skipped, Hc.
  - intros H. split; [exact (disconnect_calls w _ _ H)|]. split; [|split; [|split]].
    + rewrite (disconnect_runs w _ _ H). cbn [snd].
      apply (voice_disconnect_frame w st).
    + intros e He. rewrite (disconnect_runs w _ _ H), voice_disconnect_steps.
      cbv zeta. rewrite He. reflexivity.
    + intros Hleave Hd Hstop Hsink.
      rewrite (disconnect_runs w _ _ H), voice_disconnect_steps. cbv zeta.
      rewrite Hleave. destruct (_discrivener st); [|congruence].
      rewrite Hstop, Hsink. split; [reflexivity|].
      cbn. rewrite <- !app_assoc. reflexivity.
    + rewrite (disconnect_runs w _ _ H), voice_disconnect_steps. cbv zeta.
      destruct (guild_change_voice_state w (about_to_leave st) None false false);
        [reflexivity|].
      destruct (_discrivener st); [|reflexivity].
      destruct (snd (discrivener_stop w (add_call leave_request (about_to_leave st))));
        [reflexivity|].
      destruct (audio_responder_stop w _); reflexivity.
Qed.

(** The amended C5 on the sample clients: a teardown in which every
    collaborator returns, the skipped teardown of a fresh client, and a
    teardown in which stopping the transcriber raises: the sinks are not
    stopped, [cleanup] runs, and the error is the outcome. *)
Lemma C5_disconnect_witness :
  (fst (disconnect Samples.calm false Samples.live) = Returned tt
   /\ calls (snd (disconnect Samples.calm false Samples.live)) =
        [leave_request; DiscrivenerStop; AudioResponderStop; Cleanup])
  /\ disconnect Samples.calm false Samples.fresh = (Returned tt, Samples.fresh)
  /\ (fst (disconnect Samples.stop_fails false Samples.live)
        = Raised (CollaboratorError "ProcessLookupError")
      /\ calls (snd (disconnect Samples.stop_fails false Samples.live))
         = [leave_request; DiscrivenerStop; Cleanup]).
Proof.
  split; [|split].
  - destruct (C5_disconnect Samples.calm false Samples.live) as [_ Hrun].
    destruct (Hrun (or_intror eq_refl)) as (_ & _ & _ & Hall & _).
    apply Hall; [reflexivity | discriminate | reflexivity | reflexivity].
  - destruct (C5_disconnect Samples.calm false Samples.fresh) as [Hskip _].
    apply Hskip; reflexivity.
  - destruct (C5_disconnect Samples.stop_fails false Samples.live) as [_ Hrun].
    destruct (Hrun (or_intror eq_refl)) as (_ & _ & _ & _ & Hfull).
    rewrite Hfull. split; reflexivity.
Defined.

(** The answers of the collaborators during [voice_disconnect] are all
    taken in states whose gateway-connected flag is already false. *)
Lemma voice_disconnect_asks_after_flag w w' st :
  agree_once_disconnected w w' ->
  voice_disconnect w' st = voice_disconnect w st.
Proof.
  intros Hagree. rewrite !voice_disconnect_steps. cbv zeta.
  destruct (Hagree (about_to_leave st) eq_refl) as (Hg & _ & _).
  rewrite <- Hg.
  destruct (guild_change_voice_state w (about_to_leave st) None false false);
    [reflexivity|].
  destruct (_discrivener st); [|reflexivity].
  destruct (Hagree (add_call leave_request (about_to_leave st)) eq_refl)
    as (_ & Hs & _).
  rewrite <- Hs.
  destruct (snd (discrivener_stop w (add_call leave_request (about_to_leave st))));
    [reflexivity|].
  match goal with
  | |- context [audio_responder_stop w' ?s] =>
      destruct (Hagree s eq_refl) as (_ & _ & Ha); rewrite <- Ha
  end.
  reflexivity.
Qed.

(** C10: a teardown that reaches [voice_disconnect] assigns false to the
    gateway-connected flag before it issues the leave request, so that after
    [disconnect] (client connected, or [force]) [is_connected] is false
    whatever the leave request, the transcriber's stop and the sinks' stop
    answer. *)
Theorem C10_flag_cleared_before_leave w force st :
  force = true \/ is_connected st = true ->
  _oobabot_voice_connected (snd (disconnect w force st)) = false
  /\ is_connected (snd (disconnect w force st)) = false
  /\ (_oobabot_voice_connected (about_to_leave st) = false
      /\ calls (about_to_leave st) = calls st
      /\ exists rest,
           calls (snd (disconnect w force st)) = calls st ++ leave_request :: rest)
  /\ (forall w', agree_once_disconnected w w' ->
        disconnect w' force st = disconnect w force st).
Proof.
  intros H.
  assert (_oobabot_voice_connected (snd (disconnect w force st)) = false) as Hflag.
  { rewrite (disconnect_runs w _ _ H). cbn [snd].
    apply (voice_disconnect_frame w st). }
  split; [exact Hflag|]. split; [|split].
  - apply is_connected_needs_gateway_flag, Hflag.
  - split; [reflexivity|]. split; [reflexivity|].
    destruct (disconnect_calls w _ _ H) as (stops & Hc & _).
    exists (stops ++ [Cleanup]). exact Hc.
  - intros w' Hagree.
    rewrite (disconnect_runs w _ _ H), (disconnect_runs w' _ _ H).
    rewrite (voice_disconnect_asks_after_flag w w' st Hagree). reflexivity.
Qed.

(** C10 on the sample connected client, against a gateway and a transcriber
    that refuse every call made while the flag is still true: the teardown
    goes through as in the world where nothing is refused. *)
Lemma C10_flag_cleared_before_leave_witness :
  is_connected (snd (disconnect Samples.strict_gateway false Samples.live)) = false
  /\ disconnect Samples.calm false Samples.live
     = disconnect Samples.strict_gateway false Samples.live.
Proof.
  destruct (C10_flag_cleared_before_leave Samples.strict_gateway false Samples.live
              (or_intror eq_refl)) as (_ & Hc & _ & Hsame).
  split; [exact Hc|].
  apply Hsame. intros s Hs. cbn. rewrite Hs. repeat split.
Defined.

Lemma disconnect_frame w force st :
  channel (snd (disconnect w force st)) = channel st
  /\ _session_id (snd (disconnect w force st)) = _session_id st.
Proof.
  destruct force.
  - rewrite (disconnect_runs w true st (or_introl eq_refl)). cbn [snd].
    destruct (voice_disconnect_frame w st) as (_ & _ & Hc & Hs & _).
    split; [exact Hc | exact Hs].
  - destruct (is_connected st) eqn:E.
    + rewrite (disconnect_runs w false st (or_intror E)). cbn [snd].
      destruct (voice_disconnect_frame w st) as (_ & _ & Hc & Hs & _).
      split; [exact Hc | exact Hs].
    + rewrite (disconnect_skipped w st E). split; reflexivity.
Qed.

(* ================================================================== *)
(** ** Gateway voice-state updates *)

(** [on_voice_state_update] written out branch by branch. *)
Lemma on_voice_state_update_steps w data st :
  on_voice_state_update w data st =
  let s0 := set_session_id (Some (vs_session_id data)) st in
  if server_initiated st then
    let s1 :=
      add_log DEBUG "Server-initiated voice state update for Channel ID %s (Guild ID %s)" s0 in
    match vs_channel_id data with
    | None => disconnect w false s1
    | Some cid =>
        match guild_get_channel w cid with
        | None =>
            (Returned tt, add_log WARNING "Channel ID %s not found in Guild ID %s" s1)
        | Some ch =>
            if is_VocalGuildChannel (channel_kind ch)
            then (Returned tt, set_channel ch s1)
            else (Returned tt, add_log WARNING "Channel ID %s not a VocalGuildChannel." s1)
        end
    end
  else
    (Returned tt,
     set_voice_state_complete true
       (add_log DEBUG "Voice state complete for Channel ID %s (Guild ID %s) during handshake" s0)).
Proof.
  unfold on_voice_state_update, server_initiated, bind, modify, get, logger.
  cbn [fst snd _handshaking _potentially_reconnecting set_session_id].
  destruct (negb (_handshaking st) || _potentially_reconnecting st); [|reflexivity].
  destruct (vs_channel_id data) as [cid|]; [|reflexivity].
  destruct (guild_get_channel w cid) as [ch|]; [|reflexivity].
  destruct (is_VocalGuildChannel (channel_kind ch)); reflexivity.
Qed.

(** C8, as the spec states it, fails: an update that arrives during the
    handshake and names another voice channel of the guild leaves the
    current channel as it was. *)
Lemma C8_handshake_update_keeps_channel :
  _handshaking Samples.shaking = true
  /\ guild_get_channel Samples.calm 11 = Some Samples.stage
  /\ channel (snd (on_voice_state_update Samples.calm
                     (Samples.state_update (Some 11%Z)) Samples.shaking))
     = Samples.lobby
  /\ channel (snd (on_voice_state_update Samples.calm
                     (Samples.state_update (Some 11%Z)) Samples.shaking))
     <> Samples.stage.
Proof. repeat split. discriminate. Qed.

(** C8 (amended): [on_voice_state_update] always stores the session id of
    the payload.  The current channel is replaced only by an update that is
    server-initiated (received outside the handshake, or while potentially
    reconnecting) and names a channel of the guild that is a vocal channel;
    in every other case it is kept. *)
Theorem C8_session_always_channel_sometimes w data st :
  _session_id (snd (on_voice_state_update w data st)) = Some (vs_session_id data)
  /\ channel (snd (on_voice_state_update w data st)) =
       match vs_channel_id data with
       | None => channel st
       | Some cid =>
           if server_initiated st then
             match guild_get_channel w cid with
             | None => channel st
             | Some ch =>
                 if is_VocalGuildChannel (channel_kind ch) then ch else channel st
             end
           else channel st
       end.
Proof.
  rewrite on_voice_state_update_steps. cbv zeta.
  destruct (server_initiated st).
  - destruct (vs_channel_id data) as [cid|].
    + destruct (guild_get_channel w cid) as [ch|]; [|split; reflexivity].
      destruct (is_VocalGuildChannel (channel_kind ch)); split; reflexivity.
    + match goal with
      | |- context [disconnect w false ?s] =>
          destruct (disconnect_frame w false s) as [-> ->]
      end.
      split; reflexivity.
  - destruct (vs_channel_id data); split; reflexivity.
Qed.

(** C9, as the spec states it, fails: an ignored update still overwrites the
    stored session id. *)
Lemma C9_ignored_update_changes_session_id :
  _handshaking Samples.live = false
  /\ guild_get_channel Samples.calm 99 = None
  /\ _session_id Samples.live = Some "s-1"
  /\ _session_id (snd (on_voice_state_update Samples.calm
                         (Samples.state_update (Some 99%Z)) Samples.live))
     = Some "s-2"
  /\ _session_id (snd (on_voice_state_update Samples.calm
                         (Samples.state_update (Some 99%Z)) Samples.live))
     <> _session_id Samples.live.
Proof. repeat split. discriminate. Qed.

(** C9 (amended): a server-initiated voice-state update that names a
    channel id the guild does not know, or a channel that is not a vocal
    channel, returns after a warning; the client is as before except for its
    log and for the stored session id, which is overwritten as for every
    update. *)
Theorem C9_unknown_or_wrong_kind_channel w data st cid :
  server_initiated st = true ->
  vs_channel_id data = Some cid ->
  (guild_get_channel w cid = None
   \/ exists ch, guild_get_channel w cid = Some ch
                 /\ is_VocalGuildChannel (channel_kind ch) = false) ->
  exists warning,
    on_voice_state_update w data st =
      (Returned tt,
       add_log WARNING warning
         (add_log DEBUG "Server-initiated voice state update for Channel ID %s (Guild ID %s)"
            (set_session_id (Some (vs_session_id data)) st))).
Proof.
  intros Hs Hc Hbad. rewrite on_voice_state_update_steps. cbv zeta.
  rewrite Hs, Hc. destruct Hbad as [-> | (ch & -> & ->)]; eauto.
Qed.

(** The amended C9 on the sample connected client: an unknown channel id
    and the id of a text channel. *)
Lemma C9_unknown_or_wrong_kind_channel_witness :
  (exists warning,
     on_voice_state_update Samples.calm (Samples.state_update (Some 99%Z)) Samples.live =
       (Returned tt,
        add_log WARNING warning
          (add_log DEBUG "Server-initiated voice state update for Channel ID %s (Guild ID %s)"
             (set_session_id (Some "s-2") Samples.live))))
  /\ (exists warning,
     on_voice_state_update Samples.calm (Samples.state_update (Some 20%Z)) Samples.live =
       (Returned tt,
        add_log WARNING warning
          (add_log DEBUG "Server-initiated voice state update for Channel ID %s (Guild ID %s)"
             (set_session_id (Some "s-2") Samples.live)))).
Proof.
  split.
  - apply (C9_unknown_or_wrong_kind_channel Samples.calm
             (Samples.state_update (Some 99%Z)) Samples.live 99%Z);
      [reflexivity | reflexivity | left; reflexivity].
  - apply (C9_unknown_or_wrong_kind_channel Samples.calm
             (Samples.state_update (Some 20%Z)) Samples.live 20%Z);
      [reflexivity | reflexivity | right; exists Samples.general; split; reflexivity].
Defined.

(* ================================================================== *)
(** ** The transcriber's disconnect notification *)

(** What the handler does with a disconnect notification when an event loop
    is found: the state event is set, the transcription-connected flag is
    cleared, no collaborator is called, and [self.disconnect] is queued.
    The body of [disconnect], were it run with the default [force], would
    find [is_connected] false and return at its guard. *)
Lemma disconnect_notification w m st :
  msg_type m = DISCONNECT ->
  (forall s, asyncio_get_event_loop w s = LoopFound) ->
  _handle_discrivener_output w m st =
    (Returned tt,
     add_callback CallDisconnect
       (set_discrivener_connected false
          (set_voice_state_complete true
             (add_log DEBUG "discrivener messsage: %s" st))))
  /\ is_connected (snd (_handle_discrivener_output w m st)) = false
  /\ calls (snd (_handle_discrivener_output w m st)) = calls st
  /\ disconnect w false (snd (_handle_discrivener_output w m st)) =
       (Returned tt, snd (_handle_discrivener_output w m st)).
Proof.
  intros Hm Hloop.
  assert (_handle_discrivener_output w m st =
    (Returned tt,
     add_callback CallDisconnect
       (set_discrivener_connected false
          (set_voice_state_complete true
             (add_log DEBUG "discrivener messsage: %s" st))))) as E.
  { unfold _handle_discrivener_output. rewrite Hm.
    unfold bind, logger, modify, get. cbn [fst snd]. rewrite Hloop. reflexivity. }
  rewrite E. cbn [snd]. split; [reflexivity|]. split; [|split].
  - apply is_connected_needs_notification. reflexivity.
  - reflexivity.
  - apply disconnect_skipped.
    apply is_connected_needs_notification. reflexivity.
Qed.

(** C4: a disconnect notification on a connected client sets the state
    event, clears the transcription-connected flag, calls nothing inline and
    queues [disconnect] on the loop; but when the loop runs the queued call
    no teardown takes place: no leave request is sent, the transcriber is
    not stopped, [cleanup] does not run and the gateway-connected flag stays
    true.  The queued call does not run the body of [disconnect], and the
    body, run without [force], would itself return as soon as it finds
    [is_connected] false. *)
Theorem C4_queued_disconnect_tears_nothing_down :
  is_connected Samples.live = true
  /\ _voice_state_complete Samples.notified = true
  /\ _discrivener_connected Samples.notified = false
  /\ is_connected Samples.notified = false
  /\ calls Samples.notified = []
  /\ loop_callbacks Samples.notified = [CallDisconnect]
  /\ deliver Samples.calm LoopRunsCallback Samples.notified
     = set_loop_callbacks [] Samples.notified
  /\ calls (deliver Samples.calm LoopRunsCallback Samples.notified) = []
  /\ transcription_alive (deliver Samples.calm LoopRunsCallback Samples.notified) = true
  /\ _oobabot_voice_connected (deliver Samples.calm LoopRunsCallback Samples.notified) = true
  /\ calls (snd (disconnect Samples.calm true Samples.notified))
     = [leave_request; DiscrivenerStop; AudioResponderStop; Cleanup]
  /\ disconnect Samples.calm false Samples.notified = (Returned tt, Samples.notified)
  /\ disconnect Samples.calm false (set_loop_callbacks [] Samples.notified)
     = (Returned tt, set_loop_callbacks [] Samples.notified).
Proof. repeat split. Qed.

(* ================================================================== *)
(** ** Gateway voice-server updates *)

(** C2: [on_voice_server_update] only writes a warning when the server
    event is already set, and only writes a warning when the endpoint or the
    token is absent; otherwise, the collaborators returning, it starts the
    transcription session with the normalized endpoint, starts the sinks and
    sets the server event, after which a further delivery is one of the
    ignored ones. *)
Theorem C2_on_voice_server_update w data st :
  (_voice_server_complete st = true ->
     on_voice_server_update w data st =
       (Returned tt, add_log WARNING "Ignoring extraneous voice server update." st))
  /\ (_voice_server_complete st = false ->
      su_endpoint data = None \/ su_token data = None ->
      on_voice_server_update w data st =
        (Returned tt,
         add_log WARNING "Awaiting endpoint... This requires waiting. If timeout occurred considering raising the timeout and reconnecting." st))
  /\ (forall endpoint token d d',
        _voice_server_complete st = false ->
        su_endpoint data = Some endpoint ->
        su_token data = Some token ->
        _discrivener st = Some d ->
        let args := mkRunArgs (channel_id (channel st)) (normalize_endpoint endpoint)
                              (su_guild_id data) (_session_id st) (user_id st) token in
        let started := set_discrivener (Some d') (add_call (DiscrivenerRun args) st) in
        discrivener_run w st args = (d', None) ->
        audio_responder_start w started = None ->
        on_voice_server_update w data st =
          (Returned tt,
           set_voice_server_complete true (add_call AudioResponderStart started))
        /\ forall data',
             on_voice_server_update w data'
               (set_voice_server_complete true (add_call AudioResponderStart started)) =
             (Returned tt,
              add_log WARNING "Ignoring extraneous voice server update."
                (set_voice_server_complete true (add_call AudioResponderStart started)))).
Proof.
  assert (forall s data0, _voice_server_complete s = true ->
            on_voice_server_update w data0 s =
              (Returned tt, add_log WARNING "Ignoring extraneous voice server update." s))
    as Hdup.
  { intros s data0 Hs. unfold on_voice_server_update, bind, get, logger, modify.
    rewrite Hs. reflexivity. }
  split; [apply Hdup|]. split.
  - intros Hs Habsent. unfold on_voice_server_update, bind, get, logger, modify.
    rewrite Hs. destruct Habsent as [-> | ->]; [reflexivity|].
    destruct (su_endpoint data); reflexivity.
  - intros endpoint token d d' Hs He Ht Hd args started Hrun Hstart. split.
    + unfold on_voice_server_update, bind, get, modify, discrivener_call, call_out.
      rewrite Hs, He, Ht, Hd. fold args. rewrite Hrun. fold started.
      rewrite Hstart. reflexivity.
    + intros data'. apply Hdup. reflexivity.
Qed.

(** C2 on the sample handshaking client: the first well-formed delivery
    starts the transcriber against ["region123.example.com"] and sets the
    server event; the same delivery a second time only adds a warning. *)
Lemma C2_on_voice_server_update_witness :
  on_voice_server_update Samples.calm Samples.server_update Samples.shaking =
    (Returned tt,
     set_voice_server_complete true
       (add_call AudioResponderStart
          (set_discrivener (Some (mkDiscrivener true))
             (add_call
                (DiscrivenerRun
                   (mkRunArgs 10 "region123.example.com" 1 None 2 "tok"))
                Samples.shaking))))
  /\ calls (snd (on_voice_server_update Samples.calm Samples.server_update
                   (snd (on_voice_server_update Samples.calm Samples.server_update
                           Samples.shaking))))
     = [DiscrivenerRun (mkRunArgs 10 "region123.example.com" 1 None 2 "tok");
        AudioResponderStart].
Proof.
  destruct (C2_on_voice_server_update Samples.calm Samples.server_update Samples.shaking)
    as (_ & _ & Hfirst).
  destruct (Hfirst "wss://region123.example.com:443" "tok"
              (mkDiscrivener false) (mkDiscrivener true)
              eq_refl eq_refl eq_refl eq_refl eq_refl eq_refl) as [E Hdup].
  split.
  - exact E.
  - rewrite E. cbn [snd]. rewrite (Hdup Samples.server_update). reflexivity.
Defined.

(* ================================================================== *)
(** ** The handshake in [connect] *)

(** The wait returns exactly when both events are set at its end, and
    otherwise raises [asyncio.TimeoutError]. *)
Lemma sane_wait_for_outcome w arrivals st :
  (fst (sane_wait_for w arrivals st) = Returned tt
   /\ handshake_complete (snd (sane_wait_for w arrivals st)) = true)
  \/ (fst (sane_wait_for w arrivals st) = Raised TimeoutError
      /\ handshake_complete (snd (sane_wait_for w arrivals st)) = false).
Proof.
  revert st. induction arrivals as [|d rest IH]; intros st; simpl.
  - destruct (_voice_state_complete st && _voice_server_complete st) eqn:E;
      [left | right]; split; (reflexivity || exact E).
  - destruct (_voice_state_complete st && _voice_server_complete st) eqn:E.
    + left. split; [reflexivity | exact E].
    + apply IH.
Qed.

Lemma sane_wait_for_timed_out w arrivals st :
  handshake_complete (snd (sane_wait_for w arrivals st)) = false ->
  fst (sane_wait_for w arrivals st) = Raised TimeoutError.
Proof.
  intros H. destruct (sane_wait_for_outcome w arrivals st) as [[_ Ht] | [Hr _]];
    [congruence | exact Hr].
Qed.

Lemma sane_wait_for_completed w arrivals st :
  handshake_complete (snd (sane_wait_for w arrivals st)) = true ->
  fst (sane_wait_for w arrivals st) = Returned tt.
Proof.
  intros H. destruct (sane_wait_for_outcome w arrivals st) as [[Hr _] | [_ Hf]];
    [exact Hr | congruence].
Qed.

Lemma disconnect_keeps_events w force st :
  _voice_state_complete (snd (disconnect w force st)) = _voice_state_complete st
  /\ _voice_server_complete (snd (disconnect w force st)) = _voice_server_complete st.
Proof.
  assert (force = true \/ is_connected st = true ->
          _voice_state_complete (snd (disconnect w force st)) = _voice_state_complete st
          /\ _voice_server_complete (snd (disconnect w force st))
             = _voice_server_complete st) as Hrun.
  { intros H. rewrite (disconnect_runs w force st H). cbn [snd].
    destruct (voice_disconnect_frame w st) as (_ & _ & _ & _ & _ & Hs & Hv & _).
    split; [exact Hs | exact Hv]. }
  destruct force; [apply Hrun; left; reflexivity|].
  destruct (is_connected st) eqn:E; [apply Hrun; right; reflexivity|].
  rewrite (disconnect_skipped w st E). split; reflexivity.
Qed.

(** Nothing that arrives during the wait clears an event, so the test of
    [sane_wait_for] on the current state sees every event that has been set
    since the wait began. *)
Lemma deliver_keeps_events w d st :
  (_voice_state_complete st = true -> _voice_state_complete (deliver w d st) = true)
  /\ (_voice_server_complete st = true -> _voice_server_complete (deliver w d st) = true).
Proof.
  destruct d as [data | data | m |]; cbn [deliver].
  - rewrite on_voice_state_update_steps. cbv zeta.
    destruct (server_initiated st).
    + destruct (vs_channel_id data) as [cid|].
      * destruct (guild_get_channel w cid) as [ch|]; [|split; intros H; exact H].
        destruct (is_VocalGuildChannel (channel_kind ch)); split; intros H; exact H.
      * match goal with
        | |- context [disconnect w false ?s] =>
            destruct (disconnect_keeps_events w false s) as [-> ->]
        end.
        split; intros H; exact H.
    + split; intros H; [reflexivity | exact H].
  - unfold on_voice_server_update, bind, get, logger, modify, discrivener_call, call_out.
    destruct (_voice_server_complete st) eqn:Es.
    { split; intros H; [exact H | exact Es]. }
    destruct (su_endpoint data), (su_token data); cbn [snd];
      try (split; intros H; [exact H | discriminate H]).
    destruct (_discrivener st); cbn [snd];
      try (split; intros H; [exact H | discriminate H]).
    destruct (discrivener_run w st _) as [d' [e|]]; cbn [snd];
      try (split; intros H; [exact H | discriminate H]).
    destruct (audio_responder_start w _); cbn [snd];
      split; intros H; solve [exact H | reflexivity | discriminate H].
  - unfold _handle_discrivener_output, bind, get, logger, modify, call_out, raise.
    destruct (msg_type m); cbn [snd fst];
      try (split; intros H; solve [exact H | reflexivity]).
    + destruct (asyncio_get_event_loop w _); cbn [snd];
        split; intros H; solve [exact H | reflexivity].
    + destruct (msg_is_TranscribedMessage m); cbn [snd negb];
        [|split; intros H; exact H].
      destruct (transcript_on_transcribed_message w st (msg_text m)); cbn [snd];
        split; intros H; exact H.
  - destruct (loop_callbacks st) as [|cb rest]; [split; intros H; exact H|].
    destruct cb. split; intros H; exact H.
Qed.

(** After a wait that timed out: the forced teardown, then the timeout
    error unless the teardown raised first. *)
Lemma connect_await_timed_out w timeout arrivals st :
  handshake_complete (snd (sane_wait_for w arrivals st)) = false ->
  connect_await w timeout arrivals st =
    (match fst (disconnect w true (snd (sane_wait_for w arrivals st))) with
     | Returned _ => Raised (VoiceClientError (CouldNotConnect timeout))
     | Raised e => Raised e
     end,
     snd (disconnect w true (snd (sane_wait_for w arrivals st)))).
Proof.
  intros H. apply sane_wait_for_timed_out in H.
  unfold connect_await, bind, try_except, raise.
  destruct (sane_wait_for w arrivals st) as [r s]. cbn [fst snd] in *. subst r.
  destruct (disconnect w true s) as [[[]|e] s']; reflexivity.
Qed.

(** After a wait that both events ended: the bookkeeping, and a normal
    return. *)
Lemma connect_await_completed w timeout arrivals st :
  handshake_complete (snd (sane_wait_for w arrivals st)) = true ->
  connect_await w timeout arrivals st =
    (Returned tt,
     set_handshaking false
       (add_log INFO "Voice handshake complete."
          (set_voice_server_complete false
             (set_voice_state_complete false
                (set_oobabot_voice_connected true
                   (snd (sane_wait_for w arrivals st))))))).
Proof.
  intros H. apply sane_wait_for_completed in H.
  unfold connect_await, bind, try_except, logger, modify.
  destruct (sane_wait_for w arrivals st) as [r s]. cbn [fst snd] in *. subst r.
  reflexivity.
Qed.

(** C1, as the spec states it, fails: when the wait times out and the
    gateway then refuses the leave request of the forced teardown, the error
    that reaches the caller of [connect] is the gateway's, not the
    handshake-timeout error. *)
Lemma C1_timeout_error_preempted :
  handshake_complete
    (snd (sane_wait_for Samples.leave_fails []
            (snd (connect_request Samples.leave_fails false false Samples.fresh))))
  = false
  /\ fst (connect Samples.leave_fails false (5 # 1)%Q false false [] Samples.fresh)
     = Raised (CollaboratorError "ConnectionClosed")
  /\ fst (connect Samples.leave_fails false (5 # 1)%Q false false [] Samples.fresh)
     <> Raised (VoiceClientError (CouldNotConnect (5 # 1)%Q))
  /\ calls (snd (connect Samples.leave_fails false (5 # 1)%Q false false [] Samples.fresh))
     = [ChangeVoiceState (Some 10%Z) false false; leave_request; Cleanup].
Proof. repeat split. discriminate. Qed.

(** C1 (amended): once [connect] has sent its request, a wait that ends
    without both events set is followed by [disconnect] with [force] true,
    which sends the leave request; [connect] then raises the
    handshake-timeout error if that teardown returned, and the teardown's own
    error if it raised.  A wait that ends with both events set makes
    [connect] return without any error. *)
Theorem C1_handshake_timeout w reconnect timeout self_deaf self_mute arrivals st st1 :
  connect_request w self_deaf self_mute st = (Returned tt, st1) ->
  (handshake_complete (snd (sane_wait_for w arrivals st1)) = false ->
     connect w reconnect timeout self_deaf self_mute arrivals st =
       (match fst (disconnect w true (snd (sane_wait_for w arrivals st1))) with
        | Returned _ => Raised (VoiceClientError (CouldNotConnect timeout))
        | Raised e => Raised e
        end,
        snd (disconnect w true (snd (sane_wait_for w arrivals st1))))
     /\ (exists stops,
           calls (snd (connect w reconnect timeout self_deaf self_mute arrivals st)) =
             calls (snd (sane_wait_for w arrivals st1))
             ++ leave_request :: stops ++ [Cleanup])
     /\ fst (connect w reconnect timeout self_deaf self_mute arrivals st) <> Returned tt)
  /\ (handshake_complete (snd (sane_wait_for w arrivals st1)) = true ->
      fst (connect w reconnect timeout self_deaf self_mute arrivals st) = Returned tt
      /\ _oobabot_voice_connected
           (snd (connect w reconnect timeout self_deaf self_mute arrivals st)) = true).
Proof.
  intros Hreq.
  assert (connect w reconnect timeout self_deaf self_mute arrivals st =
          connect_await w timeout arrivals st1) as Hc.
  { unfold connect, bind. rewrite Hreq. reflexivity. }
  rewrite Hc. split.
  - intros Hto. rewrite (connect_await_timed_out w timeout arrivals st1 Hto).
    split; [reflexivity|]. cbn [fst snd]. split.
    + destruct (disconnect_calls w true (snd (sane_wait_for w arrivals st1))
                  (or_introl eq_refl)) as (stops & Hcalls & _).
      exists stops. exact Hcalls.
    + destruct (fst (disconnect w true (snd (sane_wait_for w arrivals st1))));
        discriminate.
  - intros Hok. rewrite (connect_await_completed w timeout arrivals st1 Hok).
    split; reflexivity.
Qed.

(** The amended C1 on a fresh client in a world where every call returns:
    with nothing arriving, [connect] raises the handshake-timeout error after
    a forced teardown; with both updates arriving, it returns. *)
Lemma C1_handshake_timeout_witness :
  connect Samples.calm false (5 # 1)%Q false false [] Samples.fresh =
    (Raised (VoiceClientError (CouldNotConnect (5 # 1)%Q)),
     snd (disconnect Samples.calm true
            (snd (connect_request Samples.calm false false Samples.fresh))))
  /\ fst (connect Samples.calm false (5 # 1)%Q false false
            [GatewayVoiceServerUpdate Samples.server_update;
             GatewayVoiceStateUpdate (Samples.state_update (Some 10%Z))]
            Samples.fresh)
     = Returned tt.
Proof.
  split.
  - destruct (C1_handshake_timeout Samples.calm false (5 # 1)%Q false false []
                Samples.fresh
                (snd (connect_request Samples.calm false false Samples.fresh))
                eq_refl) as [Hto _].
    destruct (Hto eq_refl) as (E & _). rewrite E. reflexivity.
  - destruct (C1_handshake_timeout Samples.calm false (5 # 1)%Q false false
                [GatewayVoiceServerUpdate Samples.server_update;
                 GatewayVoiceStateUpdate (Samples.state_update (Some 10%Z))]
                Samples.fresh
                (snd (connect_request Samples.calm false false Samples.fresh))
                eq_refl) as [_ Hok].
    destruct (Hok eq_refl) as (E & _). exact E.
Defined.

(** The two updates complete the handshake in either order; one of them
    alone does not, and [connect] then fails with the timeout error. *)
Example handshake_either_order :
  fst (connect Samples.calm false (5 # 1)%Q false false
         [GatewayVoiceStateUpdate (Samples.state_update (Some 10%Z));
          GatewayVoiceServerUpdate Samples.server_update] Samples.fresh)
  = Returned tt
  /\ fst (connect Samples.calm false (5 # 1)%Q false false
            [GatewayVoiceServerUpdate Samples.server_update;
             GatewayVoiceStateUpdate (Samples.state_update (Some 10%Z))] Samples.fresh)
     = Returned tt
  /\ fst (connect Samples.calm false (5 # 1)%Q false false
            [GatewayVoiceStateUpdate (Samples.state_update (Some 10%Z))] Samples.fresh)
     = Raised (VoiceClientError (CouldNotConnect (5 # 1)%Q))
  /\ fst (connect Samples.calm false (5 # 1)%Q false false
            [GatewayVoiceServerUpdate Samples.server_update] Samples.fresh)
     = Raised (VoiceClientError (CouldNotConnect (5 # 1)%Q))
  /\ fst (connect Samples.calm false (5 # 1)%Q false false
            [GatewayVoiceServerUpdate
               (mkVoiceServerUpdate None 1 (Some "wss://region123.example.com:443"));
             GatewayVoiceStateUpdate (Samples.state_update (Some 10%Z))] Samples.fresh)
     = Raised (VoiceClientError (CouldNotConnect (5 # 1)%Q)).
Proof. repeat split. Qed.

(* ================================================================== *)
(** ** More on [rpartition] and the endpoint rewriting *)

Lemma contains_false_rsplit_last c s :
  PyStr.contains c s = false -> PyStr.rsplit_last c s = None.
Proof.
  induction s as [|a rest IH]; simpl; [reflexivity|].
  intros H. apply orb_false_iff in H. destruct H as [Ha Hr].
  rewrite (IH Hr), Ha. reflexivity.
Qed.

Lemma rsplit_last_at_last c h t :
  PyStr.contains c t = false ->
  PyStr.rsplit_last c (h ++ String c t)%string = Some (h, t).
Proof.
  intros Ht. induction h as [|a h IH]; simpl.
  - rewrite (contains_false_rsplit_last c t Ht), Ascii.eqb_refl. reflexivity.
  - rewrite IH. reflexivity.
Qed.

(** [rpartition] splits at the last separator and loses nothing: its three
    parts concatenate back to the input, the tail holds no separator, and
    any way of writing the input as head, separator and separator-free tail
    is the one it returns.  Without a separator the input is the tail. *)
Theorem rpartition_splits_at_last c s :
  (forall h sep t,
     PyStr.rpartition c s = (h, sep, t) ->
     (h ++ sep ++ t)%string = s /\ PyStr.contains c t = false)
  /\ (forall h t,
        s = (h ++ String c t)%string -> PyStr.contains c t = false ->
        PyStr.rpartition c s = (h, String c EmptyString, t))
  /\ (PyStr.contains c s = false ->
      PyStr.rpartition c s = (EmptyString, EmptyString, s)).
Proof.
  split; [|split].
  - intros h sep t. unfold PyStr.rpartition.
    destruct (PyStr.rsplit_last c s) as [[h' t']|] eqn:E.
    + intros [= <- <- <-]. destruct (rsplit_last_some c s h' t' E) as [-> Hc].
      split; [reflexivity | exact Hc].
    + intros [= <- <- <-]. split; [reflexivity|].
      apply rsplit_last_none, E.
  - intros h t -> Hc. unfold PyStr.rpartition.
    rewrite (rsplit_last_at_last c h t Hc). reflexivity.
  - intros Hc. unfold PyStr.rpartition.
    rewrite (contains_false_rsplit_last c s Hc). reflexivity.
Qed.

(** [rpartition] on ["a:b:c"]: the split is at the second colon. *)
Lemma rpartition_splits_at_last_witness :
  PyStr.rpartition ":"%char "a:b:c" = ("a:b", ":", "c")
  /\ PyStr.rpartition ":"%char "abc" = ("", "", "abc").
Proof.
  destruct (rpartition_splits_at_last ":"%char "a:b:c") as (_ & Hsome & _).
  destruct (rpartition_splits_at_last ":"%char "abc") as (_ & _ & Hnone).
  split.
  - apply (Hsome "a:b" "c"); reflexivity.
  - apply Hnone. reflexivity.
Defined.

Lemma slice_from_scheme host :
  PyStr.slice_from 6 ("wss://" ++ host)%string = host.
Proof. reflexivity. Qed.

Lemma startswith_scheme host :
  PyStr.startswith "wss://" ("wss://" ++ host)%string = true.
Proof. unfold PyStr.startswith. simpl. destruct host; reflexivity. Qed.

(** An endpoint made of a host and a port is stored as the host: with the
    ["wss://"] scheme in front, both scheme and port are removed; without
    it, the port alone. *)
Theorem normalize_endpoint_host_port host port :
  PyStr.contains ":"%char port = false ->
  normalize_endpoint ("wss://" ++ host ++ ":" ++ port)%string = host
  /\ (PyStr.startswith "wss://" host = false ->
      normalize_endpoint (host ++ ":" ++ port)%string = host).
Proof.
  intros Hp. split.
  - unfold normalize_endpoint, PyStr.rpartition.
    change ("wss://" ++ host ++ ":" ++ port)%string
      with ("wss://" ++ (host ++ String ":"%char port))%string.
    assert (("wss://" ++ (host ++ String ":"%char port))%string
            = (("wss://" ++ host) ++ String ":"%char port)%string) as -> by reflexivity.
    rewrite (rsplit_last_at_last ":"%char ("wss://" ++ host)%string port Hp).
    rewrite startswith_scheme. apply slice_from_scheme.
  - intros Hh. unfold normalize_endpoint, PyStr.rpartition.
    change (host ++ ":" ++ port)%string with (host ++ String ":"%char port)%string.
    rewrite (rsplit_last_at_last ":"%char host port Hp), Hh. reflexivity.
Qed.

(** The rewriting of a plain and of a prefixed endpoint with port 443. *)
Lemma normalize_endpoint_host_port_witness :
  normalize_endpoint "wss://eu-west42.example.org:443" = "eu-west42.example.org"
  /\ normalize_endpoint "eu-west42.example.org:443" = "eu-west42.example.org".
Proof.
  destruct (normalize_endpoint_host_port "eu-west42.example.org" "443" eq_refl)
    as [Hs Hp].
  split; [exact Hs | apply Hp; reflexivity].
Defined.

(** An endpoint with the scheme but no port loses everything after the
    scheme's own colon: what is stored is ["wss"]. *)
Theorem normalize_endpoint_scheme_without_port host :
  PyStr.contains ":"%char host = false ->
  normalize_endpoint ("wss://" ++ host)%string = "wss".
Proof.
  intros Hh. unfold normalize_endpoint, PyStr.rpartition.
  change ("wss://" ++ host)%string
    with ("wss" ++ String ":"%char ("//" ++ host))%string.
  rewrite (rsplit_last_at_last ":"%char "wss" ("//" ++ host)%string).
  - reflexivity.
  - simpl. exact Hh.
Qed.

Lemma normalize_endpoint_scheme_without_port_witness :
  normalize_endpoint "wss://region123.example.com" = "wss".
Proof.
  apply (normalize_endpoint_scheme_without_port "region123.example.com").
  reflexivity.
Defined.

(* ================================================================== *)
(** ** The local REPL *)

Section REPLFacts.
Import LocalREPL.

Lemma echo_never_prompts tokens :
  filter is_prompt (map echo tokens) = [].
Proof.
  induction tokens as [|t rest IH]; simpl; [reflexivity|].
  destruct t; simpl; exact IH.
Qed.

Lemma echo_tokens tokens :
  flat_map token_of (map echo tokens) = filter nonempty tokens.
Proof.
  induction tokens as [|t rest IH]; simpl; [reflexivity|].
  destruct t; simpl; rewrite IH; reflexivity.
Qed.

Lemma serve_app rbt a b :
  serve rbt (a ++ b) = serve rbt a ++ serve rbt b.
Proof.
  induction a as [|p rest IH]; simpl; [reflexivity|].
  rewrite IH, <- app_assoc. reflexivity.
Qed.

Lemma serve_prompts rbt stdin :
  length (filter is_prompt (serve rbt stdin)) = length stdin.
Proof.
  induction stdin as [|p rest IH]; simpl; [reflexivity|].
  rewrite filter_app, echo_never_prompts. simpl. rewrite IH. reflexivity.
Qed.

Lemma serve_tokens rbt stdin :
  flat_map token_of (serve rbt stdin) =
  flat_map (fun p => filter nonempty (rbt p)) stdin.
Proof.
  induction stdin as [|p rest IH]; simpl; [reflexivity|].
  rewrite flat_map_app, echo_tokens. simpl. rewrite IH. reflexivity.
Qed.

Lemma serve_ends_with_prompt rbt stdin :
  stdin <> [] -> exists before, serve rbt stdin = before ++ [ShowPrompt].
Proof.
  induction stdin as [|p rest IH]; [congruence|]. intros _. simpl.
  destruct rest as [|q rest'].
  - exists (map echo (rbt p)). reflexivity.
  - destruct (IH ltac:(discriminate)) as (before & ->).
    exists (map echo (rbt p) ++ ShowPrompt :: before).
    rewrite <- app_assoc. reflexivity.
Qed.

Lemma string_append_nil_r (s : string) : (s ++ "")%string = s.
Proof. induction s as [|a s IH]; simpl; [reflexivity | rewrite IH; reflexivity]. Qed.

Lemma string_append_assoc (a b c : string) :
  ((a ++ b) ++ c)%string = (a ++ (b ++ c))%string.
Proof. induction a as [|x a IH]; simpl; [reflexivity | rewrite IH; reflexivity]. Qed.

Lemma concat_cons x l :
  String.concat "" (x :: l) = (x ++ String.concat "" l)%string.
Proof.
  destruct l as [|y l]; simpl; [rewrite string_append_nil_r; reflexivity | reflexivity].
Qed.

Lemma stdout_app a b :
  stdout (a ++ b) = (stdout a ++ stdout b)%string.
Proof.
  unfold stdout. induction a as [|x a IH]; [reflexivity|].
  change (map written ((x :: a) ++ b)) with (written x :: map written (a ++ b)).
  change (map written (x :: a)) with (written x :: map written a).
  rewrite !concat_cons, IH, string_append_assoc. reflexivity.
Qed.

(** The REPL shows one prompt more than it reads lines, the last thing it
    prints is a prompt, and between the prompts it prints the non-empty
    tokens of each response, in order, with nothing of its own but the line
    ends that stand for the empty tokens.  Reading more lines only adds to
    what was printed. *)
Theorem repl_prompts_and_tokens rbt stdin :
  length (filter is_prompt (start rbt stdin)) = S (length stdin)
  /\ (exists before, start rbt stdin = before ++ [ShowPrompt])
  /\ flat_map token_of (start rbt stdin)
     = flat_map (fun p => filter nonempty (rbt p)) stdin
  /\ length (start rbt stdin)
     = (S (length stdin) + length (flat_map rbt stdin))%nat
  /\ (forall more,
        stdout (start rbt (stdin ++ more))
        = (stdout (start rbt stdin) ++ stdout (serve rbt more))%string)
  /\ stdout (start rbt []) = (newline ++ ">>> ")%string.
Proof.
  unfold start. split; [|split; [|split; [|split; [|split]]]].
  - simpl. rewrite serve_prompts. reflexivity.
  - destruct stdin as [|p rest].
    + exists []. reflexivity.
    + destruct (serve_ends_with_prompt rbt (p :: rest) ltac:(discriminate))
        as (before & ->).
      exists (ShowPrompt :: before). reflexivity.
  - simpl. apply serve_tokens.
  - simpl. f_equal. induction stdin as [|p rest IH]; simpl; [reflexivity|].
    rewrite !length_app, length_map. simpl. rewrite IH. lia.
  - intros more. rewrite serve_app.
    change (ShowPrompt :: serve rbt stdin ++ serve rbt more)
      with ((ShowPrompt :: serve rbt stdin) ++ serve rbt more).
    apply stdout_app.
  - reflexivity.
Qed.

End REPLFacts.

(* ================================================================== *)
(** ** What no method assigns *)

(** A relation between the client before and after that every field
    assignment made by the class respects is respected by every method, by
    every delivery and by every sequence of them. *)
Section Preservation.

Variable R : VoiceClient -> VoiceClient -> Prop.
Hypothesis R_refl : forall s, R s s.
Hypothesis R_trans : forall a b c, R a b -> R b c -> R a c.
Hypothesis R_channel : forall v s, R s (set_channel v s).
Hypothesis R_discrivener : forall d s, R s (set_discrivener (Some d) s).
Hypothesis R_discrivener_connected : forall v s, R s (set_discrivener_connected v s).
Hypothesis R_handshaking : forall v s, R s (set_handshaking v s).
Hypothesis R_voice_connected : forall v s, R s (set_oobabot_voice_connected v s).
Hypothesis R_state_event : forall v s, R s (set_voice_state_complete v s).
Hypothesis R_server_event : forall v s, R s (set_voice_server_complete v s).
Hypothesis R_session_id : forall v s, R s (set_session_id v s).
Hypothesis R_log : forall l format s, R s (add_log l format s).
Hypothesis R_calls : forall c s, R s (add_call c s).
Hypothesis R_callbacks : forall v s, R s (set_loop_callbacks v s).

Definition preserves {A : Type} (m : M A) : Prop :=
  forall st, R st (snd (m st)).

Lemma preserves_ret {A} (a : A) : preserves (ret a).
Proof. intros st. apply R_refl. Qed.

Lemma preserves_raise {A} (e : Exn) : preserves (@raise A e).
Proof. intros st. apply R_refl. Qed.

Lemma preserves_get : preserves get.
Proof. intros st. apply R_refl. Qed.

Lemma preserves_bind {A B} (m : M A) (k : A -> M B) :
  preserves m -> (forall a, preserves (k a)) -> preserves (bind m k).
Proof.
  intros Hm Hk st. unfold bind. specialize (Hm st).
  destruct (m st) as [[a|e] s']; cbn [snd] in *.
  - exact (R_trans _ _ _ Hm (Hk a s')).
  - exact Hm.
Qed.

Lemma preserves_try_finally {A} (body : M A) (fin : M unit) :
  preserves body -> preserves fin -> preserves (try_finally body fin).
Proof.
  intros Hb Hf st. unfold try_finally. specialize (Hb st).
  destruct (body st) as [r s1]. cbn [snd] in Hb. specialize (Hf s1).
  destruct (fin s1) as [[u|e] s2]; cbn [snd] in *; exact (R_trans _ _ _ Hb Hf).
Qed.

Lemma preserves_try_except {A} (body : M A) (handler : Exn -> option (M A)) :
  preserves body ->
  (forall e h, handler e = Some h -> preserves h) ->
  preserves (try_except body handler).
Proof.
  intros Hb Hh st. unfold try_except. specialize (Hb st).
  destruct (body st) as [[a|e] s1]; cbn [snd] in *; [exact Hb|].
  destruct (handler e) as [h|] eqn:E; [|exact Hb].
  exact (R_trans _ _ _ Hb (Hh e h E s1)).
Qed.

Lemma preserves_logger l format : preserves (logger l format).
Proof. intros st. apply R_log. Qed.

Lemma preserves_call_out c answer : preserves (call_out c answer).
Proof.
  intros st. unfold call_out. destruct (answer st); apply R_calls.
Qed.

Lemma preserves_discrivener_call c answer : preserves (discrivener_call c answer).
Proof.
  intros st. unfold discrivener_call.
  destruct (_discrivener st); [|apply R_refl].
  destruct (answer st) as [d' [e|]]; cbn [snd];
    exact (R_trans _ _ _ (R_calls c st) (R_discrivener d' _)).
Qed.

Create HintDb preserve.

#[local] Hint Resolve preserves_ret preserves_raise preserves_get preserves_logger
  preserves_call_out preserves_discrivener_call : preserve.

Ltac preserve_step :=
  first
    [ solve [auto with preserve]
    | apply preserves_bind; [|intros ?]
    | apply preserves_try_finally
    | match goal with
      | |- preserves (if ?c then _ else _) => destruct c
      | |- preserves (match ?x with _ => _ end) => destruct x
      end
    | intros ?; cbn [modify snd];
      solve [ apply R_refl | apply R_channel | apply R_discrivener_connected
            | apply R_handshaking | apply R_voice_connected | apply R_state_event
            | apply R_server_event | apply R_session_id | apply R_log
            | apply R_callbacks ] ].

Lemma preserves_voice_disconnect w : preserves (voice_disconnect w).
Proof. unfold voice_disconnect. repeat preserve_step. Qed.

Lemma preserves_disconnect w force : preserves (disconnect w force).
Proof.
  pose proof (preserves_voice_disconnect w).
  unfold disconnect, cleanup. repeat preserve_step.
Qed.

#[local] Hint Resolve preserves_disconnect : preserve.

Lemma preserves_on_voice_state_update w data :
  preserves (on_voice_state_update w data).
Proof. unfold on_voice_state_update. repeat preserve_step. Qed.

Lemma preserves_on_voice_server_update w data :
  preserves (on_voice_server_update w data).
Proof. unfold on_voice_server_update. repeat preserve_step. Qed.

Lemma preserves_handle_discrivener_output w m :
  preserves (_handle_discrivener_output w m).
Proof.
  unfold _handle_discrivener_output. repeat preserve_step.
Qed.

Lemma preserves_move_to w target : preserves (move_to w target).
Proof. unfold move_to. repeat preserve_step. Qed.

Lemma deliver_related w d st : R st (deliver w d st).
Proof.
  destruct d as [data | data | m |]; cbn [deliver].
  - apply preserves_on_voice_state_update.
  - apply preserves_on_voice_server_update.
  - apply preserves_handle_discrivener_output.
  - destruct (loop_callbacks st) as [|cb rest]; [apply R_refl|].
    destruct cb. exact (R_callbacks rest st).
Qed.

Lemma preserves_sane_wait_for w arrivals : preserves (sane_wait_for w arrivals).
Proof.
  induction arrivals as [|d rest IH]; intros st; simpl.
  - destruct (_voice_state_complete st && _voice_server_complete st); apply R_refl.
  - destruct (_voice_state_complete st && _voice_server_complete st);
      [apply R_refl|].
    exact (R_trans _ _ _ (deliver_related w d st) (IH (deliver w d st))).
Qed.

Lemma preserves_connect w reconnect timeout self_deaf self_mute arrivals :
  preserves (connect w reconnect timeout self_deaf self_mute arrivals).
Proof.
  unfold connect. apply preserves_bind.
  - unfold connect_request, voice_connect. repeat preserve_step.
  - intros _. unfold connect_await. apply preserves_bind.
    + apply preserves_try_except; [apply preserves_sane_wait_for|].
      intros e h. destruct e; try discriminate. intros [= <-].
      repeat preserve_step.
    + intros _. repeat preserve_step.
Qed.

Lemma perform_related w a st : R st (perform w a st).
Proof.
  destruct a; cbn [perform].
  - apply preserves_connect.
  - apply preserves_disconnect.
  - apply preserves_move_to.
  - apply preserves_logger.
  - apply deliver_related.
Qed.

Lemma perform_all_related w l st : R st (perform_all w l st).
Proof.
  revert st. induction l as [|a rest IH]; intros st; simpl.
  - apply R_refl.
  - exact (R_trans _ _ _ (perform_related w a st) (IH (perform w a st))).
Qed.

End Preservation.


(** Over any sequence of calls and deliveries, in any world: the
    potentially-reconnecting flag, the guild id and the user id are never
    assigned, and a [Discrivener] handle that exists is never replaced by
    [None].  For a client built by [__init__] the flag is therefore false
    throughout, the branch test of [on_voice_state_update] is decided by the
    handshaking flag alone, and the [is None] test of [is_connected] never
    fires. *)
Theorem never_assigned w actions :
  (forall st,
     _potentially_reconnecting (perform_all w actions st) = _potentially_reconnecting st
     /\ guild_id (perform_all w actions st) = guild_id st
     /\ user_id (perform_all w actions st) = user_id st
     /\ (_discrivener st <> None -> _discrivener (perform_all w actions st) <> None))
  /\ (forall ch g u d,
        _potentially_reconnecting (perform_all w actions (init ch g u d)) = false
        /\ server_initiated (perform_all w actions (init ch g u d))
           = negb (_handshaking (perform_all w actions (init ch g u d)))
        /\ exists d', _discrivener (perform_all w actions (init ch g u d)) = Some d'
                      /\ transcription_alive (perform_all w actions (init ch g u d))
                         = is_running d').
Proof.
  assert (forall st,
     _potentially_reconnecting (perform_all w actions st) = _potentially_reconnecting st
     /\ guild_id (perform_all w actions st) = guild_id st
     /\ user_id (perform_all w actions st) = user_id st
     /\ (_discrivener st <> None -> _discrivener (perform_all w actions st) <> None))
    as Hkeep.
  { intros st.
    apply (perform_all_related
             (fun s s' =>
                _potentially_reconnecting s' = _potentially_reconnecting s
                /\ guild_id s' = guild_id s
                /\ user_id s' = user_id s
                /\ (_discrivener s <> None -> _discrivener s' <> None)));
      try solve [ intros; cbn; repeat split; auto; discriminate ].
    intros a b c (H1 & H2 & H3 & H4) (H5 & H6 & H7 & H8).
    repeat split; try congruence. auto. }
  split; [exact Hkeep|].
  intros ch g u d. destruct (Hkeep (init ch g u d)) as (Hp & _ & _ & Hd).
  cbn in Hp. split; [exact Hp|]. split.
  - unfold server_initiated. rewrite Hp. apply orb_false_r.
  - unfold transcription_alive.
    destruct (_discrivener (perform_all w actions (init ch g u d))) as [d'|].
    + exists d'. split; reflexivity.
    + exfalso. apply Hd; [discriminate | reflexivity].
Qed.

(* ================================================================== *)
(** ** More on the transcriber's notifications *)

(** The handler never touches the gateway-connected flag, the handle, the
    handshaking flag, the server event, the channel or the session id. *)
Lemma notification_frame w m st :
  _oobabot_voice_connected (snd (_handle_discrivener_output w m st))
    = _oobabot_voice_connected st
  /\ _discrivener (snd (_handle_discrivener_output w m st)) = _discrivener st
  /\ _handshaking (snd (_handle_discrivener_output w m st)) = _handshaking st
  /\ _voice_server_complete (snd (_handle_discrivener_output w m st))
     = _voice_server_complete st
  /\ channel (snd (_handle_discrivener_output w m st)) = channel st
  /\ _session_id (snd (_handle_discrivener_output w m st)) = _session_id st.
Proof.
  apply (preserves_handle_discrivener_output
           (fun s s' =>
              _oobabot_voice_connected s' = _oobabot_voice_connected s
              /\ _discrivener s' = _discrivener s
              /\ _handshaking s' = _handshaking s
              /\ _voice_server_complete s' = _voice_server_complete s
              /\ channel s' = channel s
              /\ _session_id s' = _session_id s));
    try solve [ intros; cbn; repeat split; auto ].
  intros a b c H1 H2. intuition congruence.
Qed.

(** After any run of notifications the transcription-connected flag says
    what the last connect, reconnect or disconnect among them said (and what
    it said before, when there was none), whatever the loop lookups answered;
    [is_connected] follows it, the other two conditions being untouched. *)
Theorem flag_follows_last_lifecycle_notification w ms st :
  _discrivener_connected (notify_all w ms st)
    = last_lifecycle (_discrivener_connected st) ms
  /\ is_connected (notify_all w ms st)
     = _oobabot_voice_connected st && transcription_alive st
       && last_lifecycle (_discrivener_connected st) ms.
Proof.
  assert (forall st,
            _discrivener_connected (notify_all w ms st)
              = last_lifecycle (_discrivener_connected st) ms
            /\ _oobabot_voice_connected (notify_all w ms st) = _oobabot_voice_connected st
            /\ _discrivener (notify_all w ms st) = _discrivener st) as H.
  { induction ms as [|m rest IH]; intros s; simpl.
    - repeat split.
    - destruct (IH (snd (_handle_discrivener_output w m s))) as (Hf & Hv & Hd).
      destruct (notification_frame w m s) as (Hv' & Hd' & _).
      unfold notify_all in *. simpl.
      rewrite Hf, Hv, Hd, Hv', Hd', discrivener_connected_after_notification.
      repeat split. }
  destruct (H st) as (Hf & Hv & Hd). split; [exact Hf|].
  rewrite is_connected_and. unfold transcription_alive. rewrite Hf, Hv, Hd.
  reflexivity.
Qed.

(** A user-join, a transcribed message or a notification of a kind the
    handler does not know leaves the connection as it is: [is_connected],
    both events and the callback queue are unchanged, and the only call that
    can leave the class is the hand-over of a message that really is a
    [TranscribedMessage] to the transcript.  The handler returns normally,
    except that an error raised by that hand-over leaves the callback as it
    is, there being no [try] around it. *)
Theorem content_notifications_keep_connection w m st :
  msg_type m = USER_JOIN \/ msg_type m = TRANSCRIBED_MESSAGE \/ msg_type m = OTHER_TYPE ->
  fst (_handle_discrivener_output w m st)
    = match msg_type m with
      | TRANSCRIBED_MESSAGE =>
          if msg_is_TranscribedMessage m
          then match transcript_on_transcribed_message w st (msg_text m) with
               | None => Returned tt
               | Some e => Raised e
               end
          else Returned tt
      | _ => Returned tt
      end
  /\ is_connected (snd (_handle_discrivener_output w m st)) = is_connected st
  /\ _voice_state_complete (snd (_handle_discrivener_output w m st))
     = _voice_state_complete st
  /\ _voice_server_complete (snd (_handle_discrivener_output w m st))
     = _voice_server_complete st
  /\ loop_callbacks (snd (_handle_discrivener_output w m st)) = loop_callbacks st
  /\ calls (snd (_handle_discrivener_output w m st))
     = calls st
       ++ match msg_type m with
          | TRANSCRIBED_MESSAGE =>
              if msg_is_TranscribedMessage m
              then [TranscriptOnMessage (msg_text m)] else []
          | _ => []
          end
  /\ log (snd (_handle_discrivener_output w m st))
     = log st
       ++ match msg_type m with
          | USER_JOIN => [mkLog DEBUG "discrivener messsage: %s"]
          | TRANSCRIBED_MESSAGE =>
              if msg_is_TranscribedMessage m then []
              else [mkLog WARNING "Transcribed message type but not TranscribedMessage"]
          | _ => [mkLog WARNING "Unknown discrivener message type: %s"]
          end.
Proof.
  unfold _handle_discrivener_output.
  intros [H | [H | H]]; rewrite H.
  - repeat split. apply eq_sym, app_nil_r.
  - destruct (msg_is_TranscribedMessage m); cbn [negb].
    + unfold call_out.
      destruct (transcript_on_transcribed_message w st (msg_text m));
        repeat split; apply eq_sym, app_nil_r.
    + repeat split. apply eq_sym, app_nil_r.
  - repeat split. apply eq_sym, app_nil_r.
Qed.

(** A transcribed message on the sample connected client, handed to a
    transcript that takes it and to one that raises. *)
Lemma content_notifications_keep_connection_witness :
  (fst (_handle_discrivener_output Samples.calm
          (mkDiscrivenerMessage TRANSCRIBED_MESSAGE true "hello") Samples.live)
   = Returned tt
   /\ is_connected
        (snd (_handle_discrivener_output Samples.calm
                (mkDiscrivenerMessage TRANSCRIBED_MESSAGE true "hello") Samples.live))
      = true
   /\ calls
        (snd (_handle_discrivener_output Samples.calm
                (mkDiscrivenerMessage TRANSCRIBED_MESSAGE true "hello") Samples.live))
      = [TranscriptOnMessage "hello"])
  /\ fst (_handle_discrivener_output Samples.transcript_fails
            (mkDiscrivenerMessage TRANSCRIBED_MESSAGE true "hello") Samples.live)
     = Raised (CollaboratorError "TranscriptClosed").
Proof.
  destruct (content_notifications_keep_connection Samples.calm
              (mkDiscrivenerMessage TRANSCRIBED_MESSAGE true "hello") Samples.live
              (or_intror (or_introl eq_refl))) as (Hr & Hc & _ & _ & _ & Hcalls & _).
  destruct (content_notifications_keep_connection Samples.transcript_fails
              (mkDiscrivenerMessage TRANSCRIBED_MESSAGE true "hello") Samples.live
              (or_intror (or_introl eq_refl))) as (Hr' & _).
  split; [split; [exact Hr | split; [rewrite Hc; reflexivity | exact Hcalls]]|].
  exact Hr'.
Defined.

(** A disconnect notification, whatever the loop lookup answers: the state
    event is set, the transcription-connected flag is cleared so that
    [is_connected] is false, and no collaborator is called.  [disconnect] is
    queued only when a loop is found; when the lookup answers [None] a
    warning is logged instead, and when it raises the error leaves the
    callback with the flags already changed. *)
Theorem disconnect_notification_any_loop w m st :
  msg_type m = DISCONNECT ->
  _voice_state_complete (snd (_handle_discrivener_output w m st)) = true
  /\ _discrivener_connected (snd (_handle_discrivener_output w m st)) = false
  /\ is_connected (snd (_handle_discrivener_output w m st)) = false
  /\ calls (snd (_handle_discrivener_output w m st)) = calls st
  /\ (fst (_handle_discrivener_output w m st),
      loop_callbacks (snd (_handle_discrivener_output w m st)),
      log (snd (_handle_discrivener_output w m st)))
     = match asyncio_get_event_loop w
               (set_discrivener_connected false
                  (set_voice_state_complete true
                     (add_log DEBUG "discrivener messsage: %s" st))) with
       | LoopFound =>
           (Returned tt, loop_callbacks st ++ [CallDisconnect],
            log st ++ [mkLog DEBUG "discrivener messsage: %s"])
       | LoopIsNone =>
           (Returned tt, loop_callbacks st,
            log st ++ [mkLog DEBUG "discrivener messsage: %s";
                       mkLog WARNING "No event loop to schedule voice_client.disconnect() call"])
       | LoopLookupRaises e =>
           (Raised e, loop_callbacks st,
            log st ++ [mkLog DEBUG "discrivener messsage: %s"])
       end.
Proof.
  intros Hm. unfold _handle_discrivener_output. rewrite Hm.
  unfold bind, logger, modify, get, raise. cbn [fst snd].
  destruct (asyncio_get_event_loop w _); cbn [fst snd].
  - repeat split; try reflexivity.
    apply is_connected_needs_notification. reflexivity.
  - repeat split; try reflexivity.
    + apply is_connected_needs_notification. reflexivity.
    + cbn. rewrite <- app_assoc. reflexivity.
  - repeat split; try reflexivity.
    apply is_connected_needs_notification. reflexivity.
Qed.

(** A disconnect notification on the sample connected client. *)
Lemma disconnect_notification_any_loop_witness :
  is_connected (snd (_handle_discrivener_output Samples.calm
                       Samples.disconnect_message Samples.live)) = false
  /\ calls (snd (_handle_discrivener_output Samples.calm
                   Samples.disconnect_message Samples.live)) = [].
Proof.
  destruct (disconnect_notification_any_loop Samples.calm Samples.disconnect_message
              Samples.live eq_refl) as (_ & _ & Hc & Hcalls & _).
  split; [exact Hc | exact Hcalls].
Defined.

(* ================================================================== *)
(** ** More on teardown *)

(** After a teardown that ran, [disconnect] without [force] does nothing,
    in any world; with [force] it goes through the whole teardown again. *)
Theorem disconnect_again w w' force st :
  force = true \/ is_connected st = true ->
  disconnect w' false (snd (disconnect w force st))
    = (Returned tt, snd (disconnect w force st))
  /\ exists stops,
       calls (snd (disconnect w' true (snd (disconnect w force st))))
       = calls (snd (disconnect w force st)) ++ leave_request :: stops ++ [Cleanup].
Proof.
  intros H. split.
  - apply disconnect_skipped, is_connected_needs_gateway_flag.
    rewrite (disconnect_runs w force st H). cbn [snd].
    apply (voice_disconnect_frame w st).
  - destruct (disconnect_calls w' true (snd (disconnect w force st))
                (or_introl eq_refl)) as (stops & Hc & _).
    exists stops. exact Hc.
Qed.

(** Two teardowns of the sample connected client, the second unforced. *)
Lemma disconnect_again_witness :
  calls (snd (disconnect Samples.calm false
                (snd (disconnect Samples.calm false Samples.live))))
  = [leave_request; DiscrivenerStop; AudioResponderStop; Cleanup].
Proof.
  destruct (disconnect_again Samples.calm Samples.calm false Samples.live
              (or_intror eq_refl)) as [E _].
  rewrite E. reflexivity.
Defined.

Lemma disconnect_returns_when_cooperative w force st :
  cooperative w -> _discrivener st <> None ->
  force = true \/ is_connected st = true ->
  fst (disconnect w force st) = Returned tt.
Proof.
  intros (Hg & _ & Hstop & _ & Hsink) Hd H.
  rewrite (disconnect_runs w force st H), voice_disconnect_steps. cbv zeta.
  rewrite Hg. destruct (_discrivener st); [|congruence].
  rewrite Hstop, Hsink. reflexivity.
Qed.

(** A server-initiated voice-state update without a channel is a teardown:
    [is_connected] is false afterwards in any world, a connected client has
    sent the leave request and run [cleanup], and a client that was not
    connected has only stored the session id and logged.  During the
    handshake the same update tears nothing down: it sets the state event
    and makes no call. *)
Theorem update_without_channel w data st :
  vs_channel_id data = None ->
  (server_initiated st = true ->
     is_connected (snd (on_voice_state_update w data st)) = false
     /\ (is_connected st = true ->
         exists stops,
           calls (snd (on_voice_state_update w data st))
           = calls st ++ leave_request :: stops ++ [Cleanup])
     /\ (is_connected st = false ->
         on_voice_state_update w data st =
           (Returned tt,
            add_log DEBUG "Server-initiated voice state update for Channel ID %s (Guild ID %s)"
              (set_session_id (Some (vs_session_id data)) st))))
  /\ (server_initiated st = false ->
      fst (on_voice_state_update w data st) = Returned tt
      /\ _voice_state_complete (snd (on_voice_state_update w data st)) = true
      /\ calls (snd (on_voice_state_update w data st)) = calls st
      /\ is_connected (snd (on_voice_state_update w data st)) = is_connected st).
Proof.
  intros Hc. rewrite on_voice_state_update_steps. cbv zeta. rewrite Hc.
  split; intros Hs; rewrite Hs.
  - set (s1 := add_log DEBUG _ (set_session_id _ st)).
    assert (is_connected s1 = is_connected st) as Hsame by reflexivity.
    split; [|split].
    + destruct (is_connected s1) eqn:E.
      * rewrite (disconnect_runs w false s1 (or_intror E)). cbn [snd].
        apply is_connected_needs_gateway_flag.
        apply (voice_disconnect_frame w s1).
      * rewrite (disconnect_skipped w s1 E). exact E.
    + intros Hst. rewrite <- Hsame in Hst.
      destruct (disconnect_calls w false s1 (or_intror Hst)) as (stops & Hcalls & _).
      exists stops. exact Hcalls.
    + intros Hst. rewrite <- Hsame in Hst. apply disconnect_skipped, Hst.
  - repeat split.
Qed.

(** The update without a channel on the sample connected client and on the
    sample handshaking client. *)
Lemma update_without_channel_witness :
  is_connected (snd (on_voice_state_update Samples.calm
                       (Samples.state_update None) Samples.live)) = false
  /\ calls (snd (on_voice_state_update Samples.calm
                   (Samples.state_update None) Samples.shaking)) = [].
Proof.
  destruct (update_without_channel Samples.calm (Samples.state_update None)
              Samples.live eq_refl) as [Hpost _].
  destruct (update_without_channel Samples.calm (Samples.state_update None)
              Samples.shaking eq_refl) as [_ Hshake].
  split.
  - apply Hpost. reflexivity.
  - apply Hshake. reflexivity.
Defined.

(* ================================================================== *)
(** ** [move_to] *)

(** [move_to], for any target, a channel id or [None]: it logs its
    warning and asks the gateway to change the voice state to the target,
    with both self flags false whatever they were at [connect]; its outcome
    is the gateway's answer.  It assigns nothing else: the current channel
    and [is_connected] stay, and the transcriber is never told.  The channel
    follows when the gateway answers with a voice-state update that names a
    vocal channel of the guild, on a client that is not handshaking, and this
    again makes no call. *)
Theorem move_to_then_update w target st :
  move_to w target st
    = (match guild_change_voice_state w
               (add_log WARNING "voice_client::move_to: not implemented" st)
               target false false with
       | None => Returned tt
       | Some e => Raised e
       end,
       add_call (ChangeVoiceState target false false)
         (add_log WARNING "voice_client::move_to: not implemented" st))
  /\ channel (snd (move_to w target st)) = channel st
  /\ calls (snd (move_to w target st))
     = calls st ++ [ChangeVoiceState target false false]
  /\ is_connected (snd (move_to w target st)) = is_connected st
  /\ _discrivener (snd (move_to w target st)) = _discrivener st
  /\ forall cid ch session,
       target = Some cid ->
       guild_get_channel w cid = Some ch ->
       is_VocalGuildChannel (channel_kind ch) = true ->
       server_initiated st = true ->
       channel (snd (on_voice_state_update w (mkGuildVoiceState session (Some cid))
                       (snd (move_to w target st)))) = ch
       /\ calls (snd (on_voice_state_update w (mkGuildVoiceState session (Some cid))
                        (snd (move_to w target st))))
          = calls st ++ [ChangeVoiceState target false false].
Proof.
  assert (move_to w target st
    = (match guild_change_voice_state w
               (add_log WARNING "voice_client::move_to: not implemented" st)
               target false false with
       | None => Returned tt
       | Some e => Raised e
       end,
       add_call (ChangeVoiceState target false false)
         (add_log WARNING "voice_client::move_to: not implemented" st))) as Hm.
  { unfold move_to, bind, logger, modify, call_out. cbn [fst snd].
    destruct (guild_change_voice_state w _ target false false); reflexivity. }
  split; [exact Hm|]. rewrite Hm. cbn [snd].
  split; [reflexivity|]. split; [reflexivity|]. split; [reflexivity|].
  split; [reflexivity|].
  intros cid ch session Ht Hch Hv Hs.
  rewrite on_voice_state_update_steps. cbv zeta.
  replace (server_initiated (add_call _ (add_log _ _ st))) with (server_initiated st)
    by reflexivity.
  rewrite Hs. cbn [vs_channel_id]. rewrite Hch, Hv. split; reflexivity.
Qed.

(** The sample connected client moved from the lobby to the stage, and the
    same client asked to move to no channel. *)
Lemma move_to_then_update_witness :
  channel (snd (on_voice_state_update Samples.calm (mkGuildVoiceState "s-3" (Some 11%Z))
                  (snd (move_to Samples.calm (Some 11%Z) Samples.live))))
  = Samples.stage
  /\ calls (snd (move_to Samples.calm None Samples.live))
     = [ChangeVoiceState None false false].
Proof.
  destruct (move_to_then_update Samples.calm (Some 11%Z) Samples.live)
    as (_ & _ & _ & _ & _ & Hecho).
  destruct (Hecho 11%Z Samples.stage "s-3" eq_refl eq_refl eq_refl eq_refl)
    as (Hc & _).
  destruct (move_to_then_update Samples.calm None Samples.live)
    as (_ & _ & Hcalls & _).
  split; [exact Hc | exact Hcalls].
Defined.

(* ================================================================== *)
(** ** More on [connect] *)

Lemma connect_request_guarded w self_deaf self_mute st :
  is_connected st = true ->
  connect_request w self_deaf self_mute st =
    (Raised (VoiceClientError AlreadyConnected),
     add_log INFO "Connecting to voice..." st).
Proof.
  intros Hc. unfold connect_request, bind, logger, modify, get, raise.
  cbn [fst snd].
  replace (is_connected (add_log INFO "Connecting to voice..." st))
    with (is_connected st) by reflexivity.
  rewrite Hc. reflexivity.
Qed.

Lemma connect_request_sent w self_deaf self_mute st :
  is_connected st = false ->
  connect_request w self_deaf self_mute st =
    (match guild_change_voice_state w (handshake_started st)
             (Some (channel_id (channel st))) self_deaf self_mute with
     | None => Returned tt
     | Some e => Raised e
     end,
     add_call (join_request st self_deaf self_mute) (handshake_started st)).
Proof.
  intros Hc. unfold connect_request, voice_connect, bind, logger, modify, get, call_out.
  cbn [fst snd].
  replace (is_connected (add_log INFO "Connecting to voice..." st))
    with (is_connected st) by reflexivity.
  rewrite Hc. fold (handshake_started st).
  replace (channel (handshake_started st)) with (channel st) by reflexivity.
  fold (join_request st self_deaf self_mute).
  destruct (guild_change_voice_state w (handshake_started st) _ self_deaf self_mute);
    reflexivity.
Qed.

(** What arrives during the wait never assigns the handshaking flag, and
    the calls recorded only grow. *)
Lemma sane_wait_for_frame w arrivals st :
  _handshaking (snd (sane_wait_for w arrivals st)) = _handshaking st
  /\ exists more, calls (snd (sane_wait_for w arrivals st)) = calls st ++ more.
Proof.
  split.
  - apply (preserves_sane_wait_for (fun s s' => _handshaking s' = _handshaking s));
      try solve [intros; reflexivity].
    intros a b c H1 H2. congruence.
  - apply (preserves_sane_wait_for
             (fun s s' => exists more, calls s' = calls s ++ more));
      try solve [intros; exists []; cbn; rewrite app_nil_r; reflexivity].
    + intros a b c (l1 & H1) (l2 & H2). exists (l1 ++ l2).
      rewrite H2, H1, app_assoc. reflexivity.
    + intros c s. exists [c]. reflexivity.
Qed.

Lemma disconnect_keeps_handshaking w force st :
  _handshaking (snd (disconnect w force st)) = _handshaking st.
Proof.
  apply (preserves_disconnect (fun s s' => _handshaking s' = _handshaking s));
    try solve [intros; reflexivity].
  intros a b c H1 H2. congruence.
Qed.

(** When [connect] returns, the client was not connected before; it has
    sent the request to join its own channel before anything else, the
    gateway-connected flag is true, the handshaking flag is false and both
    events are cleared again, so that [is_connected] is then decided by the
    transcriber alone. *)
Theorem connect_returned w reconnect timeout self_deaf self_mute arrivals st :
  fst (connect w reconnect timeout self_deaf self_mute arrivals st) = Returned tt ->
  is_connected st = false
  /\ (exists more,
        calls (snd (connect w reconnect timeout self_deaf self_mute arrivals st))
        = calls st ++ join_request st self_deaf self_mute :: more)
  /\ _oobabot_voice_connected
       (snd (connect w reconnect timeout self_deaf self_mute arrivals st)) = true
  /\ _handshaking (snd (connect w reconnect timeout self_deaf self_mute arrivals st))
     = false
  /\ _voice_state_complete
       (snd (connect w reconnect timeout self_deaf self_mute arrivals st)) = false
  /\ _voice_server_complete
       (snd (connect w reconnect timeout self_deaf self_mute arrivals st)) = false
  /\ handshake_complete
       (snd (connect w reconnect timeout self_deaf self_mute arrivals st)) = false
  /\ is_connected (snd (connect w reconnect timeout self_deaf self_mute arrivals st))
     = transcription_alive
         (snd (connect w reconnect timeout self_deaf self_mute arrivals st))
       && _discrivener_connected
            (snd (connect w reconnect timeout self_deaf self_mute arrivals st)).
Proof.
  intros Hret.
  destruct (is_connected st) eqn:Hc.
  { exfalso. revert Hret. unfold connect, bind.
    rewrite (connect_request_guarded w self_deaf self_mute st Hc). discriminate. }
  split; [reflexivity|].
  revert Hret. unfold connect, bind.
  rewrite (connect_request_sent w self_deaf self_mute st Hc).
  destruct (guild_change_voice_state w (handshake_started st) _ self_deaf self_mute);
    [discriminate|].
  set (s1 := add_call (join_request st self_deaf self_mute) (handshake_started st)).
  destruct (handshake_complete (snd (sane_wait_for w arrivals s1))) eqn:Hw.
  - intros _. rewrite (connect_await_completed w timeout arrivals s1 Hw). cbn [snd].
    split; [|repeat split].
    + destruct (sane_wait_for_frame w arrivals s1) as (_ & more & Hcalls).
      exists more. cbn [calls]. unfold handshake_complete in *.
      replace (calls _) with (calls (snd (sane_wait_for w arrivals s1))) by reflexivity.
      rewrite Hcalls. unfold s1. cbn. rewrite <- app_assoc. reflexivity.
    + rewrite is_connected_and. reflexivity.
  - rewrite (connect_await_timed_out w timeout arrivals s1 Hw). cbn [fst].
    destruct (fst (disconnect w true _)); discriminate.
Qed.

(** [connect] on a fresh client when both updates arrive. *)
Lemma connect_returned_witness :
  _oobabot_voice_connected
    (snd (connect Samples.calm false (5 # 1)%Q false false
            [GatewayVoiceStateUpdate (Samples.state_update (Some 10%Z));
             GatewayVoiceServerUpdate Samples.server_update] Samples.fresh))
  = true
  /\ _voice_state_complete
       (snd (connect Samples.calm false (5 # 1)%Q false false
               [GatewayVoiceStateUpdate (Samples.state_update (Some 10%Z));
                GatewayVoiceServerUpdate Samples.server_update] Samples.fresh))
     = false
  /\ _voice_server_complete
       (snd (connect Samples.calm false (5 # 1)%Q false false
               [GatewayVoiceStateUpdate (Samples.state_update (Some 10%Z));
                GatewayVoiceServerUpdate Samples.server_update] Samples.fresh))
     = false.
Proof.
  destruct (connect_returned Samples.calm false (5 # 1)%Q false false
              [GatewayVoiceStateUpdate (Samples.state_update (Some 10%Z));
               GatewayVoiceServerUpdate Samples.server_update] Samples.fresh
              eq_refl) as (_ & _ & H & _ & Hs & Hv & _).
  split; [exact H | split; [exact Hs | exact Hv]].
Defined.

(** When [connect] raises on a client that was not connected, whether at
    its request or after the wait, [is_connected] is false afterwards and the
    handshaking flag is left true (only a completed handshake resets it); the
    guard does not stand in the way of another attempt, which sends the join
    request again. *)
Theorem connect_raised w reconnect timeout self_deaf self_mute arrivals st e :
  is_connected st = false ->
  fst (connect w reconnect timeout self_deaf self_mute arrivals st) = Raised e ->
  is_connected (snd (connect w reconnect timeout self_deaf self_mute arrivals st))
    = false
  /\ _handshaking (snd (connect w reconnect timeout self_deaf self_mute arrivals st))
     = true
  /\ forall w' deaf' mute',
       calls (snd (connect_request w' deaf' mute'
                     (snd (connect w reconnect timeout self_deaf self_mute arrivals st))))
       = calls (snd (connect w reconnect timeout self_deaf self_mute arrivals st))
         ++ [join_request
               (snd (connect w reconnect timeout self_deaf self_mute arrivals st))
               deaf' mute'].
Proof.
  intros Hc Hraise.
  assert (is_connected (snd (connect w reconnect timeout self_deaf self_mute arrivals st))
            = false
          /\ _handshaking
               (snd (connect w reconnect timeout self_deaf self_mute arrivals st))
             = true) as [Hnc Hh].
  { revert Hraise. unfold connect, bind.
    rewrite (connect_request_sent w self_deaf self_mute st Hc).
    destruct (guild_change_voice_state w (handshake_started st) _ self_deaf self_mute).
    { intros _. cbn [snd]. split; [exact Hc | reflexivity]. }
    set (s1 := add_call (join_request st self_deaf self_mute) (handshake_started st)).
    destruct (handshake_complete (snd (sane_wait_for w arrivals s1))) eqn:Hw.
    - rewrite (connect_await_completed w timeout arrivals s1 Hw). discriminate.
    - intros _. rewrite (connect_await_timed_out w timeout arrivals s1 Hw). cbn [snd].
      split.
      + apply is_connected_needs_gateway_flag.
        rewrite (disconnect_runs w true _ (or_introl eq_refl)). cbn [snd].
        apply (voice_disconnect_frame w).
      + rewrite disconnect_keeps_handshaking.
        destruct (sane_wait_for_frame w arrivals s1) as (-> & _). reflexivity. }
  split; [exact Hnc|]. split; [exact Hh|].
  intros w' deaf' mute'.
  rewrite (connect_request_sent w' deaf' mute' _ Hnc). reflexivity.
Qed.

(** [connect] on a fresh client when nothing arrives. *)
Lemma connect_raised_witness :
  _handshaking (snd (connect Samples.calm false (5 # 1)%Q false false [] Samples.fresh))
  = true
  /\ is_connected (snd (connect Samples.calm false (5 # 1)%Q false false [] Samples.fresh))
     = false.
Proof.
  destruct (connect_raised Samples.calm false (5 # 1)%Q false false [] Samples.fresh
              (VoiceClientError (CouldNotConnect (5 # 1)%Q)) eq_refl eq_refl)
    as (Hc & Hh & _).
  split; [exact Hh | exact Hc].
Defined.

Lemma sane_wait_for_step w d rest st :
  handshake_complete st = false ->
  sane_wait_for w (d :: rest) st = sane_wait_for w rest (deliver w d st).
Proof. unfold handshake_complete. intros H. simpl. rewrite H. reflexivity. Qed.

Lemma sane_wait_for_done w arrivals st :
  handshake_complete st = true ->
  sane_wait_for w arrivals st = (Returned tt, st).
Proof.
  unfold handshake_complete. intros H. destruct arrivals; simpl; rewrite H; reflexivity.
Qed.

Lemma sane_wait_for_nothing_left w st :
  handshake_complete st = false ->
  sane_wait_for w [] st = (Raised TimeoutError, st).
Proof. unfold handshake_complete. intros H. simpl. rewrite H. reflexivity. Qed.

(** A voice-state update during the handshake. *)
Lemma state_update_in_handshake w data st :
  server_initiated st = false ->
  deliver w (GatewayVoiceStateUpdate data) st =
    set_voice_state_complete true
      (add_log DEBUG "Voice state complete for Channel ID %s (Guild ID %s) during handshake"
         (set_session_id (Some (vs_session_id data)) st)).
Proof.
  intros H. cbn [deliver]. rewrite on_voice_state_update_steps. cbv zeta.
  rewrite H. reflexivity.
Qed.

(** A voice-server update with endpoint and token, first of its attempt,
    when the transcriber and the sinks start. *)
Lemma server_update_starts w data endpoint token st :
  cooperative w ->
  _voice_server_complete st = false ->
  su_endpoint data = Some endpoint -> su_token data = Some token ->
  _discrivener st <> None ->
  deliver w (GatewayVoiceServerUpdate data) st =
    set_voice_server_complete true
      (add_call AudioResponderStart
         (set_discrivener
            (Some (fst (discrivener_run w st (run_args_of st data endpoint token))))
            (add_call (DiscrivenerRun (run_args_of st data endpoint token)) st))).
Proof.
  intros (_ & Hrun & _ & Hstart & _) Hs He Ht Hd. cbn [deliver].
  unfold on_voice_server_update, bind, get, modify, discrivener_call, call_out.
  rewrite Hs, He, Ht. fold (run_args_of st data endpoint token).
  destruct (_discrivener st); [|congruence].
  specialize (Hrun st (run_args_of st data endpoint token)).
  destruct (discrivener_run w st (run_args_of st data endpoint token)) as [d' r].
  cbn [fst snd] in *. subst r. rewrite Hstart. reflexivity.
Qed.

(** When no collaborator call raises, the two gateway updates complete the
    handshake of a client that is not connected in whichever order they
    arrive, and either of them alone does not: [connect] then raises the
    timeout error. *)
Theorem handshake_in_either_order w reconnect timeout self_deaf self_mute
    vs su endpoint token st :
  cooperative w ->
  is_connected st = false ->
  _potentially_reconnecting st = false ->
  _discrivener st <> None ->
  su_endpoint su = Some endpoint -> su_token su = Some token ->
  fst (connect w reconnect timeout self_deaf self_mute
         [GatewayVoiceStateUpdate vs; GatewayVoiceServerUpdate su] st) = Returned tt
  /\ fst (connect w reconnect timeout self_deaf self_mute
            [GatewayVoiceServerUpdate su; GatewayVoiceStateUpdate vs] st) = Returned tt
  /\ fst (connect w reconnect timeout self_deaf self_mute
            [GatewayVoiceStateUpdate vs] st)
     = Raised (VoiceClientError (CouldNotConnect timeout))
  /\ fst (connect w reconnect timeout self_deaf self_mute
            [GatewayVoiceServerUpdate su] st)
     = Raised (VoiceClientError (CouldNotConnect timeout)).
Proof.
  intros Hw Hc Hp Hd He Ht.
  assert (forall arrivals,
            connect w reconnect timeout self_deaf self_mute arrivals st
            = connect_await w timeout arrivals
                (add_call (join_request st self_deaf self_mute) (handshake_started st)))
    as Hconn.
  { intros arrivals. unfold connect, bind.
    rewrite (connect_request_sent w self_deaf self_mute st Hc).
    destruct Hw as (Hg & _). rewrite Hg. reflexivity. }
  set (s1 := add_call (join_request st self_deaf self_mute) (handshake_started st))
    in *.
  assert (server_initiated s1 = false) as Hs1.
  { unfold server_initiated. cbn. exact Hp. }
  assert (_discrivener s1 <> None) as Hd1 by exact Hd.
  pose proof (state_update_in_handshake w vs s1 Hs1) as Hvs.
  pose proof (server_update_starts w su endpoint token s1 Hw eq_refl He Ht Hd1) as Hsu.
  assert (forall s, handshake_complete s = false -> _discrivener s <> None ->
            fst (connect_await w timeout []
                   s) = Raised (VoiceClientError (CouldNotConnect timeout))) as Hto.
  { intros s Hs Hds.
    rewrite (connect_await_timed_out w timeout [] s);
      rewrite (sane_wait_for_nothing_left w s Hs); cbn [snd fst]; [|exact Hs].
    rewrite (disconnect_returns_when_cooperative w true s Hw Hds (or_introl eq_refl)).
    reflexivity. }
  rewrite !Hconn. repeat split.
  - rewrite (connect_await_completed w timeout _ s1); [reflexivity|].
    rewrite (sane_wait_for_step w _ _ s1 eq_refl), Hvs.
    rewrite sane_wait_for_step by reflexivity.
    match goal with
    | |- context [deliver w (GatewayVoiceServerUpdate su) ?s] =>
        rewrite (server_update_starts w su endpoint token s Hw eq_refl He Ht Hd)
    end.
    rewrite sane_wait_for_done by reflexivity. reflexivity.
  - rewrite (connect_await_completed w timeout _ s1); [reflexivity|].
    rewrite (sane_wait_for_step w _ _ s1 eq_refl), Hsu.
    rewrite sane_wait_for_step by reflexivity.
    rewrite state_update_in_handshake by (unfold server_initiated; cbn; exact Hp).
    rewrite sane_wait_for_done by reflexivity. reflexivity.
  - assert (connect_await w timeout [GatewayVoiceStateUpdate vs] s1
            = connect_await w timeout [] (deliver w (GatewayVoiceStateUpdate vs) s1)) as ->.
    { unfold connect_await, bind, try_except.
      rewrite (sane_wait_for_step w _ _ s1 eq_refl). reflexivity. }
    rewrite Hvs. apply Hto; [reflexivity | exact Hd].
  - assert (connect_await w timeout [GatewayVoiceServerUpdate su] s1
            = connect_await w timeout [] (deliver w (GatewayVoiceServerUpdate su) s1)) as ->.
    { unfold connect_await, bind, try_except.
      rewrite (sane_wait_for_step w _ _ s1 eq_refl). reflexivity. }
    rewrite Hsu. apply Hto; [reflexivity | discriminate].
Qed.

(** The four runs on a fresh client in the world where every call returns. *)
Lemma handshake_in_either_order_witness :
  fst (connect Samples.calm false (5 # 1)%Q true false
         [GatewayVoiceServerUpdate Samples.server_update;
          GatewayVoiceStateUpdate (Samples.state_update (Some 10%Z))] Samples.fresh)
  = Returned tt
  /\ fst (connect Samples.calm false (5 # 1)%Q true false
            [GatewayVoiceServerUpdate Samples.server_update] Samples.fresh)
     = Raised (VoiceClientError (CouldNotConnect (5 # 1)%Q)).
Proof.
  destruct (handshake_in_either_order Samples.calm false (5 # 1)%Q true false
              (Samples.state_update (Some 10%Z)) Samples.server_update
              "wss://region123.example.com:443" "tok" Samples.fresh)
    as (_ & H2 & _ & H4);
    try reflexivity; try discriminate.
  - repeat split.
  - split; [exact H2 | exact H4].
Defined.

Lemma deliver_cannot_set_server_event w d st :
  cannot_set_server_event d = true ->
  _voice_server_complete st = false ->
  _voice_server_complete (deliver w d st) = false.
Proof.
  intros Hd Hs. destruct d as [data | data | m |]; cbn [deliver].
  - rewrite <- Hs.
    apply (preserves_on_voice_state_update
             (fun s s' => _voice_server_complete s' = _voice_server_complete s));
      try solve [intros; reflexivity].
    intros a b c H1 H2. congruence.
  - unfold on_voice_server_update, bind, get, logger, modify. rewrite Hs.
    cbn [cannot_set_server_event] in Hd.
    destruct (su_endpoint data), (su_token data); try discriminate; exact Hs.
  - destruct (notification_frame w m st) as (_ & _ & _ & -> & _). exact Hs.
  - destruct (loop_callbacks st) as [|cb rest]; [exact Hs|]. destruct cb.
    exact Hs.
Qed.

(** The server event is set by nothing but a voice-server update that
    carries both an endpoint and a token: whatever else arrives, and however
    much of it (state updates, server updates lacking the endpoint or the
    token, notifications of the transcriber, queued callbacks), the wait times
    out and [connect] does not return. *)
Theorem handshake_needs_server_update w arrivals :
  forallb cannot_set_server_event arrivals = true ->
  (forall st,
     _voice_server_complete st = false ->
     fst (sane_wait_for w arrivals st) = Raised TimeoutError
     /\ _voice_server_complete (snd (sane_wait_for w arrivals st)) = false)
  /\ forall reconnect timeout self_deaf self_mute st,
       fst (connect w reconnect timeout self_deaf self_mute arrivals st) <> Returned tt.
Proof.
  intros Hall.
  assert (forall st,
            _voice_server_complete st = false ->
            _voice_server_complete (snd (sane_wait_for w arrivals st)) = false) as Hkeep.
  { induction arrivals as [|d rest IH]; intros st Hs; simpl.
    - rewrite Hs, andb_false_r. exact Hs.
    - rewrite Hs, andb_false_r. simpl in Hall. apply andb_true_iff in Hall.
      destruct Hall as [Hd Hrest].
      apply (IH Hrest). apply deliver_cannot_set_server_event; assumption. }
  assert (forall st,
            _voice_server_complete st = false ->
            handshake_complete (snd (sane_wait_for w arrivals st)) = false) as Hnot.
  { intros st Hs. unfold handshake_complete. rewrite (Hkeep st Hs). apply andb_false_r. }
  split.
  - intros st Hs. split; [|exact (Hkeep st Hs)].
    apply sane_wait_for_timed_out, Hnot, Hs.
  - intros reconnect timeout self_deaf self_mute st.
    unfold connect, bind.
    destruct (is_connected st) eqn:Hc.
    + rewrite (connect_request_guarded w self_deaf self_mute st Hc). discriminate.
    + rewrite (connect_request_sent w self_deaf self_mute st Hc).
      destruct (guild_change_voice_state w (handshake_started st) _ self_deaf self_mute);
        [discriminate|].
      rewrite connect_await_timed_out by (apply Hnot; reflexivity).
      cbn [fst]. destruct (fst (disconnect w true _)); discriminate.
Qed.

(** A handshake in which the server update comes without its token, twice,
    among a state update and a connect notification. *)
Lemma handshake_needs_server_update_witness :
  fst (connect Samples.calm false (5 # 1)%Q false false
         [GatewayVoiceServerUpdate
            (mkVoiceServerUpdate None 1 (Some "wss://region123.example.com:443"));
          GatewayVoiceStateUpdate (Samples.state_update (Some 10%Z));
          DiscrivenerOutput (mkDiscrivenerMessage CONNECT false "");
          GatewayVoiceServerUpdate
            (mkVoiceServerUpdate None 1 (Some "wss://region123.example.com:443"))]
         Samples.fresh)
  <> Returned tt.
Proof.
  destruct (handshake_needs_server_update Samples.calm
         [GatewayVoiceServerUpdate
            (mkVoiceServerUpdate None 1 (Some "wss://region123.example.com:443"));
          GatewayVoiceStateUpdate (Samples.state_update (Some 10%Z));
          DiscrivenerOutput (mkDiscrivenerMessage CONNECT false "");
          GatewayVoiceServerUpdate
            (mkVoiceServerUpdate None 1 (Some "wss://region123.example.com:443"))]
         eq_refl) as [_ H].
  apply H.
Defined.

(** The session id handed to [Discrivener.run] is the one stored when the
    server update is handled, and the channel id that of the current
    channel: when the state update of the handshake has come first it is that
    update's session id, and when the server update comes first on a client
    built by [__init__] it is still [discord.utils.MISSING]. *)
Theorem run_gets_session_id_seen_so_far w vs su endpoint token st :
  server_initiated st = false ->
  _voice_server_complete st = false ->
  _discrivener st <> None ->
  su_endpoint su = Some endpoint -> su_token su = Some token ->
  (exists more,
     calls (deliver w (GatewayVoiceServerUpdate su)
              (deliver w (GatewayVoiceStateUpdate vs) st))
     = calls st
       ++ DiscrivenerRun
            (mkRunArgs (channel_id (channel st)) (normalize_endpoint endpoint)
                       (su_guild_id su) (Some (vs_session_id vs)) (user_id st) token)
          :: more)
  /\ (exists more,
        calls (deliver w (GatewayVoiceServerUpdate su) st)
        = calls st
          ++ DiscrivenerRun
               (mkRunArgs (channel_id (channel st)) (normalize_endpoint endpoint)
                          (su_guild_id su) (_session_id st) (user_id st) token)
             :: more)
  /\ forall ch g u d,
       st = set_handshaking true (init ch g u d) ->
       exists more,
         calls (deliver w (GatewayVoiceServerUpdate su) st)
         = DiscrivenerRun
             (mkRunArgs (channel_id ch) (normalize_endpoint endpoint)
                        (su_guild_id su) None u token)
           :: more.
Proof.
  intros Hs Hsrv Hd He Ht.
  assert (forall s, _voice_server_complete s = false -> _discrivener s <> None ->
            exists more,
              calls (deliver w (GatewayVoiceServerUpdate su) s)
              = calls s ++ DiscrivenerRun (run_args_of s su endpoint token) :: more)
    as Hrun.
  { intros s Hs0 Hd0. cbn [deliver].
    unfold on_voice_server_update, bind, get, modify, discrivener_call, call_out.
    rewrite Hs0, He, Ht. fold (run_args_of s su endpoint token).
    destruct (_discrivener s); [|congruence].
    destruct (discrivener_run w s (run_args_of s su endpoint token)) as [d' [e|]];
      cbn [snd].
    - exists []. reflexivity.
    - destruct (audio_responder_start w _); cbn [snd].
      + exists [AudioResponderStart]. cbn. rewrite <- app_assoc. reflexivity.
      + exists [AudioResponderStart]. cbn. rewrite <- app_assoc. reflexivity. }
  split; [|split].
  - rewrite (state_update_in_handshake w vs st Hs).
    match goal with
    | |- context [deliver w (GatewayVoiceServerUpdate su) ?s] =>
        destruct (Hrun s Hsrv Hd) as (more & Hc)
    end.
    exists more. rewrite Hc. reflexivity.
  - destruct (Hrun st Hsrv Hd) as (more & Hc). exists more. exact Hc.
  - intros ch g u d ->. destruct (Hrun _ Hsrv Hd) as (more & Hc).
    exists more. rewrite Hc. reflexivity.
Qed.

(** The two orders on the sample handshaking client. *)
Lemma run_gets_session_id_seen_so_far_witness :
  calls (deliver Samples.calm (GatewayVoiceServerUpdate Samples.server_update)
           (deliver Samples.calm
              (GatewayVoiceStateUpdate (Samples.state_update (Some 10%Z)))
              Samples.shaking))
  = [DiscrivenerRun (mkRunArgs 10 "region123.example.com" 1 (Some "s-2") 2 "tok");
     AudioResponderStart]
  /\ calls (deliver Samples.calm (GatewayVoiceServerUpdate Samples.server_update)
              Samples.shaking)
     = [DiscrivenerRun (mkRunArgs 10 "region123.example.com" 1 None 2 "tok");
        AudioResponderStart].
Proof.
  destruct (run_gets_session_id_seen_so_far Samples.calm
              (Samples.state_update (Some 10%Z)) Samples.server_update
              "wss://region123.example.com:443" "tok" Samples.shaking
              eq_refl eq_refl ltac:(discriminate) eq_refl eq_refl)
    as ((m1 & H1) & (m2 & H2) & _).
  split; reflexivity.
Defined.
